(** * ArcLog: the single-dispatch serializer ([arclog.sd])

    A shallow embedding of [arclog/sd/__init__.py], [arclog/sd/serializers.py]
    and [arclog/exceptions.py], and the properties of the dispatch engine
    stated in the specification.

    Python objects are modelled by what the code observes of them: their
    class (with its method resolution order), their attributes, the results
    of the methods the converters call, and the outcome of [str] and [repr].
    Exceptions are explicit: every call returns [Ok v] or [Raise e]. *)

From stdpp Require Import gmap strings list fin_maps.
From Stdlib Require Import ZArith Ascii String DecimalString.

Local Open Scope string_scope.
Local Open Scope list_scope.
Local Open Scope Z_scope.
Set Warnings "-register-all".

(** ** Exceptions and results *)

(** An exception: the names of the classes in its class's [__mro__] (the
    class itself first), which is what [except C] looks at, and its [args]. *)
Record Exn := MkExn { exn_mro : list string; exn_args : list string }.

Definition exn_class (e : Exn) : string := hd "" (exn_mro e).

(** [except C:] catches [e]. *)
Definition caught_by (C : string) (e : Exn) : bool :=
  existsb (String.eqb C) (exn_mro e).

Inductive Result (A : Type) : Type :=
| Ok (a : A)
| Raise (e : Exn).
Arguments Ok {A} a.
Arguments Raise {A} e.

Definition bind {A B : Type} (r : Result A) (k : A -> Result B) : Result B :=
  match r with
  | Ok a => k a
  | Raise e => Raise e
  end.

Notation "'do' x <- r ; k" := (bind r (fun x => k))
  (at level 10, x name, r at level 100, k at level 200).

Definition is_ok {A : Type} (r : Result A) : bool :=
  match r with Ok _ => true | Raise _ => false end.

Definition builtin_exn (name : string) (bases : list string) (args : list string) : Exn :=
  MkExn (name :: bases ++ ["Exception"; "BaseException"; "object"]) args.

Definition TypeError (msg : string) : Exn := builtin_exn "TypeError" [] [msg].
Definition ValueError (msg : string) : Exn := builtin_exn "ValueError" [] [msg].
Definition OverflowError (msg : string) : Exn :=
  builtin_exn "OverflowError" ["ArithmeticError"] [msg].
Definition AttributeError (msg : string) : Exn := builtin_exn "AttributeError" [] [msg].
Definition KeyError (msg : string) : Exn := builtin_exn "KeyError" ["LookupError"] [msg].
Definition RuntimeError (msg : string) : Exn := builtin_exn "RuntimeError" [] [msg].

(** [raise NotImplementedError]: the bare class, no argument. *)
Definition NotImplementedError : Exn :=
  builtin_exn "NotImplementedError" ["RuntimeError"] [].

(** ** Classes

    A class is identified by its name.  [cls_mro] is the order in which
    [functools.singledispatch] walks the class: its [__mro__] merged with
    the registered abstract classes it is a virtual subclass of and their
    bases.  An entry
    records whether the class is in the real [__mro__] ([me_real]) and the
    classes it is itself a subclass of ([me_supers], for the ambiguity test
    of [functools]).  [cls_abcs] lists further abstract classes
    [isinstance] accepts (such as [collections.abc.Set]). *)

Record MroEntry := MkEntry {
  me_class : string;
  me_real : bool;
  me_supers : list string
}.

Record PyClass := MkClass {
  cls_name : string;        (* __name__ and __qualname__ *)
  cls_module : string;      (* __module__ *)
  cls_mro : list MroEntry;
  cls_abcs : list string
}.

(** ** Objects *)

(** The exponent of [Decimal.as_tuple()]: an [int], or one of the strings
    ['n'] (NaN), ['N'] (signalling NaN), ['F'] (infinity). *)
Inductive DecExp := EInt (e : Z) | ENaN | ESNaN | EInf.

Inductive PyVal : Type :=
| MkObj (cls : PyClass) (st : State)
        (attrs : list (string * PyVal))
        (meths : list (string * Result PyVal))
        (str_ repr_ : Result string)
with State : Type :=
| SNone
| SBool (b : bool)
| SInt (z : Z)
| SStr (s : string)
| SBytes (bs : list N)
| SItems (l : list PyVal)               (* what iterating the object yields *)
| SMapping (l : list (PyVal * PyVal))   (* the items of a dict-like object *)
| SDecimal (sign : bool) (digits : list Z) (exponent : DecExp)
| SClass (c : PyClass)                  (* the object is itself a class *)
| STraceback (frames : list string)     (* each entry as [traceback] prints it *)
| SOther.

Definition ob_class (o : PyVal) : PyClass := let 'MkObj c _ _ _ _ _ := o in c.
Definition ob_state (o : PyVal) : State := let 'MkObj _ s _ _ _ _ := o in s.
Definition ob_attrs (o : PyVal) : list (string * PyVal) :=
  let 'MkObj _ _ a _ _ _ := o in a.
Definition ob_meths (o : PyVal) : list (string * Result PyVal) :=
  let 'MkObj _ _ _ m _ _ := o in m.
Definition ob_str (o : PyVal) : Result string := let 'MkObj _ _ _ _ s _ := o in s.
Definition ob_repr (o : PyVal) : Result string := let 'MkObj _ _ _ _ _ r := o in r.

(** Freshly built results.  The code never looks at them again, so they are
    plain data; [ORef] is an object that already existed, returned as it is. *)
Inductive PyFloat :=
| FOfDecimal (sign : bool) (digits : list Z) (e : Z)   (* nearest double *)
| FInfinity (sign : bool)
| FQuietNaN (sign : bool).

Inductive Out : Type :=
| ORef (v : PyVal)
| OBool (b : bool)
| OInt (z : Z)
| OFloat (f : PyFloat)
| OStr (s : string)
| OList (l : list Out)
| OTuple (l : list Out)
| ODict (l : list (Out * Out)).

(** ** Association lists with Python's [dict] behaviour *)

Fixpoint assoc {V : Type} (k : string) (l : list (string * V)) : option V :=
  match l with
  | [] => None
  | (k', v) :: l' => if String.eqb k k' then Some v else assoc k l'
  end.

(** ** Builtins the code calls *)

Definition type_ (o : PyVal) : PyClass := ob_class o.

Definition mro_names (c : PyClass) : list string := map me_class (cls_mro c).

Definition mem (s : string) (l : list string) : bool :=
  existsb (String.eqb s) l.

(** [issubclass(c, name)] *)
Definition issubclass (c : PyClass) (name : string) : bool :=
  mem name (mro_names c) || mem name (cls_abcs c).

(** [isinstance(obj, name)] *)
Definition isinstance (o : PyVal) (name : string) : bool :=
  issubclass (type_ o) name.

(** [isinstance(obj, A | B | ...)] *)
Definition isinstance_any (o : PyVal) (names : list string) : bool :=
  existsb (isinstance o) names.

Definition hasattr (o : PyVal) (a : string) : bool :=
  match assoc a (ob_attrs o), assoc a (ob_meths o) with
  | None, None => false
  | _, _ => true
  end.

Definition no_attribute (o : PyVal) (a : string) : Exn :=
  AttributeError ("'" +:+ cls_name (type_ o) +:+ "' object has no attribute '"
                  +:+ a +:+ "'").

(** [obj.a] *)
Definition getattr (o : PyVal) (a : string) : Result PyVal :=
  match assoc a (ob_attrs o) with
  | Some v => Ok v
  | None => Raise (no_attribute o a)
  end.

(** [obj.m()] for the methods the converters call without arguments (or with
    the constant argument written in the source). *)
Definition call_method (o : PyVal) (m : string) : Result PyVal :=
  match assoc m (ob_meths o) with
  | Some r => r
  | None => Raise (no_attribute o m)
  end.

(** [str(obj)] and [repr(obj)] *)
Definition str (o : PyVal) : Result string := ob_str o.
Definition repr (o : PyVal) : Result string := ob_repr o.

Definition not_iterable (o : PyVal) : Exn :=
  TypeError ("'" +:+ cls_name (type_ o) +:+ "' object is not iterable").

(** The items [for e in obj] yields: those of a builtin container, or those
    of the iterator a user-defined [__iter__] returns. *)
Definition iterate (o : PyVal) : Result (list PyVal) :=
  match ob_state o with
  | SItems l => Ok l
  | SMapping l => Ok (map fst l)
  | _ =>
      match assoc "__iter__" (ob_meths o) with
      | Some r =>
          do it <- r;
          match ob_state it with
          | SItems l => Ok l
          | _ => Raise (TypeError "iter() returned non-iterator")
          end
      | None => Raise (not_iterable o)
      end
  end.

(** [list(obj)] *)
Definition list_ (o : PyVal) : Result Out :=
  do l <- iterate o; Ok (OList (map ORef l)).

(** [dict(obj)] for a mapping. *)
Definition dict_ (o : PyVal) : Result Out :=
  match ob_state o with
  | SMapping l => Ok (ODict (map (fun kv => (ORef (fst kv), ORef (snd kv))) l))
  | _ => Raise (not_iterable o)
  end.

(** Truth value of a result, as [if k(obj):] tests it, for the builtin
    kinds of value; an instance of another class counts as true.  (A float
    is false when it is zero; a decimal too small for a double, which rounds
    to zero, is not told apart here.) *)
Definition state_truthy (s : State) : bool :=
  match s with
  | SNone => false
  | SBool b => b
  | SInt z => negb (z =? 0)
  | SStr s => negb (String.eqb s "")
  | SBytes bs => negb (Nat.eqb (List.length bs) 0)
  | SItems l => negb (Nat.eqb (List.length l) 0)
  | SMapping l => negb (Nat.eqb (List.length l) 0)
  | SDecimal _ ds (EInt _) => existsb (fun d => negb (d =? 0)) ds
  | _ => true
  end.

Definition truthy (o : Out) : bool :=
  match o with
  | ORef v => state_truthy (ob_state v)
  | OBool b => b
  | OInt z => negb (z =? 0)
  | OFloat (FOfDecimal _ ds _) => existsb (fun d => negb (d =? 0)) ds
  | OFloat _ => true
  | OStr s => negb (String.eqb s "")
  | OList l => negb (Nat.eqb (List.length l) 0)
  | OTuple l => negb (Nat.eqb (List.length l) 0)
  | ODict l => negb (Nat.eqb (List.length l) 0)
  end.

(** ** Library functions the module imports *)

(** The line feed and the double quote. *)
Definition nl : string := String "010" EmptyString.
Definition dq : string := String "034" EmptyString.

(** [s.startswith(p)] *)
Definition startswith (p s : string) : bool := String.prefix p s.

(** [s.replace(old, new)]: every occurrence of [old], left to right, without
    overlap.  [skip] counts the characters of an occurrence still to drop. *)
Fixpoint replace_from (old new : string) (skip : nat) (s : string) : string :=
  match s with
  | EmptyString => EmptyString
  | String c rest =>
      match skip with
      | S k => replace_from old new k rest
      | O =>
          if String.prefix old s && negb (String.eqb old "")
          then new +:+ replace_from old new (String.length old - 1) rest
          else String c (replace_from old new O rest)
      end
  end.

Definition replace (old new s : string) : string := replace_from old new O s.

(** [s.strip()]: drops leading and trailing white space. *)
Definition is_space (c : ascii) : bool :=
  let n := N_of_ascii c in
  ((9 <=? n) && (n <=? 13) || (28 <=? n) && (n <=? 32))%N.

Fixpoint lstrip (s : string) : string :=
  match s with
  | String c rest => if is_space c then lstrip rest else s
  | EmptyString => EmptyString
  end.

Fixpoint rstrip (s : string) : string :=
  match s with
  | EmptyString => EmptyString
  | String c rest =>
      match rstrip rest with
      | EmptyString => if is_space c then EmptyString else String c EmptyString
      | r => String c r
      end
  end.

Definition strip (s : string) : string := rstrip (lstrip s).

(** [''.join(l)] *)
Definition join (l : list string) : string := fold_right String.append "" l.

(** [str(n)] for an [int]. *)
Definition str_of_Z (z : Z) : string := NilZero.string_of_int (Z.to_int z).

(** [base64.urlsafe_b64encode(bs).decode('utf-8')] *)
Definition b64_alphabet : string :=
  "ABCDEFGHIJKLMNOPQRSTUVWXYZabcdefghijklmnopqrstuvwxyz0123456789-_".

Definition b64_char (n : N) : string :=
  match String.get (N.to_nat (n mod 64)%N) b64_alphabet with
  | Some c => String c EmptyString
  | None => EmptyString
  end.

Fixpoint b64_groups (bs : list N) : string :=
  match bs with
  | a :: b :: c :: rest =>
      let n := (a * 65536 + b * 256 + c)%N in
      b64_char (n / 262144) +:+ b64_char (n / 4096) +:+ b64_char (n / 64)
      +:+ b64_char n +:+ b64_groups rest
  | [a; b] =>
      let n := (a * 65536 + b * 256)%N in
      b64_char (n / 262144) +:+ b64_char (n / 4096) +:+ b64_char (n / 64) +:+ "="
  | [a] =>
      let n := (a * 65536)%N in
      b64_char (n / 262144) +:+ b64_char (n / 4096) +:+ "=="
  | [] => ""
  end.

Definition urlsafe_b64encode (o : PyVal) : Result string :=
  match ob_state o with
  | SBytes bs => Ok (b64_groups bs)
  | _ => Raise (TypeError ("a bytes-like object is required, not '"
                           +:+ cls_name (type_ o) +:+ "'"))
  end.

(** [decimal.Decimal]: [as_tuple().exponent], [int(d)] and [float(d)]. *)
Definition digits_value (ds : list Z) : Z :=
  fold_left (fun acc d => acc * 10 + d) ds 0.

Definition signed (sign : bool) (z : Z) : Z := if sign then - z else z.

Definition as_tuple_exponent (o : PyVal) : Result DecExp :=
  match ob_state o with
  | SDecimal _ _ e => Ok e
  | _ => Raise (no_attribute o "as_tuple")
  end.

Definition int_ (o : PyVal) : Result Out :=
  match ob_state o with
  | SDecimal sign ds (EInt e) =>
      if 0 <=? e then Ok (OInt (signed sign (digits_value ds * 10 ^ e)))
      else Ok (OInt (signed sign (digits_value ds / 10 ^ (- e))))
  | SDecimal _ _ EInf => Raise (OverflowError "cannot convert Infinity to integer")
  | SDecimal _ _ _ => Raise (ValueError "cannot convert NaN to integer")
  | _ => Raise (TypeError "int() argument must be a string, a bytes-like object or a real number")
  end.

Definition float_ (o : PyVal) : Result Out :=
  match ob_state o with
  | SDecimal sign ds (EInt e) => Ok (OFloat (FOfDecimal sign ds e))
  | SDecimal sign _ EInf => Ok (OFloat (FInfinity sign))
  | SDecimal sign _ ENaN => Ok (OFloat (FQuietNaN sign))
  | SDecimal _ _ ESNaN => Raise (ValueError "cannot convert signaling NaN to float")
  | _ => Raise (TypeError "float() argument must be a string or a real number")
  end.

(** [traceback.format_tb(tb)] and [traceback.format_exception(type(e), e, tb)]
    for an exception that has no [__cause__], [__context__] or notes and is
    neither a [SyntaxError] nor an exception group.  The text of the
    exception is [str(e)], or a fixed text when that raises; the class is
    printed with its module unless that is [builtins] or [__main__]. *)
Definition tb_frames (tb : PyVal) : Result (list string) :=
  match ob_state tb with
  | SNone => Ok []
  | STraceback fs => Ok fs
  | _ => Raise (no_attribute tb "tb_frame")
  end.

Definition format_tb (tb : PyVal) : Result (list string) := tb_frames tb.

Definition safe_string (o : PyVal) : string :=
  match str o with
  | Ok s => s
  | Raise _ => "<exception str() failed>"
  end.

Definition format_final_exc_line (etype value : string) : string :=
  if String.eqb value "" then etype +:+ nl
  else etype +:+ ": " +:+ value +:+ nl.

Definition exc_type_name (c : PyClass) : string :=
  if String.eqb (cls_module c) "__main__" || String.eqb (cls_module c) "builtins"
  then cls_name c
  else cls_module c +:+ "." +:+ cls_name c.

Definition format_exception (c : PyClass) (e tb : PyVal) : Result (list string) :=
  do fs <- tb_frames tb;
  let final := format_final_exc_line (exc_type_name c) (safe_string e) in
  match fs with
  | [] => Ok [final]
  | _ => Ok (("Traceback (most recent call last):" +:+ nl) :: fs ++ [final])
  end.

(** ** Functions as objects

    A module-level function is known by its name, the annotations
    [get_type_hints] returns for it, and what calling it on one argument
    does.  Another module-level object is known by an identifier and by
    its truth value; it cannot be called. *)

Inductive TypeExpr :=
| TClass (c : string)            (* a class *)
| TUnion (cs : list string)      (* a union of classes, [A | B] *)
| TOther (descr : string).       (* a parametrised or special form *)

Record Func := MkFunc {
  fn_name : string;
  fn_hints : list (string * TypeExpr);
  fn_call : PyVal -> Result Out
}.

Inductive GObj :=
| GFunc (f : Func)
| GData (ident : string) (truth : bool).

(** Object identity, as a dictionary keyed by functions uses it. *)
Definition gobj_id (g : GObj) : string :=
  match g with
  | GFunc f => fn_name f
  | GData i _ => i
  end.

Definition gobj_truth (g : GObj) : bool :=
  match g with
  | GFunc _ => true
  | GData _ t => t
  end.

Definition callable (g : GObj) : option Func :=
  match g with
  | GFunc f => Some f
  | GData _ _ => None
  end.

(** [g(obj)] *)
Definition call (g : GObj) (obj : PyVal) : Result Out :=
  match g with
  | GFunc f => fn_call f obj
  | GData _ _ => Raise (TypeError "object is not callable")
  end.

(** [typing.get_type_hints(g)] *)
Definition get_type_hints (g : GObj) : Result (list (string * TypeExpr)) :=
  match g with
  | GFunc f => Ok (fn_hints f)
  | GData _ _ => Raise (TypeError "not a module, class, method, or function")
  end.

(** [arclog.types.aliases.TypeHandlersMap]: a [dict], in insertion order. *)
Definition TypeHandlersMap : Type := list (GObj * Func).

(** [mapping[k] = v]: an existing key keeps its place. *)
Fixpoint setitem (k : GObj) (v : Func) (m : TypeHandlersMap) : TypeHandlersMap :=
  match m with
  | [] => [(k, v)]
  | (k', v') :: m' =>
      if String.eqb (gobj_id k) (gobj_id k') then (k', v) :: m'
      else (k', v') :: setitem k v m'
  end.

(** ** [arclog/exceptions.py] *)

Definition space_join (l : list string) : string :=
  match l with
  | [] => ""
  | x :: xs => fold_left (fun acc y => acc +:+ " " +:+ y) xs x
  end.

(** [ArcLogError.__init__(msg, *args)], for a [msg] that is not a list: the
    non-empty parts joined by spaces become the only argument. *)
Definition ArcLogError_init (mro : list string) (msg : string) (args : list string) : Exn :=
  let parts := filter (fun s => negb (String.eqb s "")) (msg :: args) in
  MkExn mro [space_join parts].

Definition MissingAnnotationError_mro : list string :=
  ["MissingAnnotationError"; "ArcLogError"; "TypeError"; "Exception";
   "BaseException"; "object"].

(** [MissingAnnotationError(func)]; reading [__name__] of an object that is
    not a function fails before the error is built. *)
Definition MissingAnnotationError (func : GObj) : Exn :=
  match func with
  | GFunc f =>
      let msg := "The function '" +:+ fn_name f +:+ "' must have an 'obj' parameter." in
      ArcLogError_init MissingAnnotationError_mro msg []
  | GData _ _ => AttributeError "object has no attribute '__name__'"
  end.

(** ** [arclog/sd/serializers.py]

    Small helpers for the idioms of the converter and recognizer bodies. *)

Definition pred (b : bool) : Result Out := Ok (OBool b).

Definition ref (r : Result PyVal) : Result Out := do v <- r; Ok (ORef v).

(** [str(obj)] as the returned value. *)
Definition str_out (obj : PyVal) : Result Out := do s <- str obj; Ok (OStr s).

Fixpoint mapM {A B : Type} (f : A -> Result B) (l : list A) : Result (list B) :=
  match l with
  | [] => Ok []
  | x :: xs => do y <- f x; do ys <- mapM f xs; Ok (y :: ys)
  end.

(** [obj is C] for a class [C]. *)
Definition is_ (obj : PyVal) (C : string) : bool :=
  match ob_state obj with
  | SClass c => String.eqb (cls_name c) C
  | _ => false
  end.

(** [issubclass(obj, C)] for an [obj] that is a class. *)
Definition class_issubclass (obj : PyVal) (C : string) : bool :=
  match ob_state obj with
  | SClass c => issubclass c C
  | _ => false
  end.

(** [obj.__name__] *)
Definition name_attr (obj : PyVal) : Result Out :=
  match ob_state obj with
  | SClass c => Ok (OStr (cls_name c))
  | _ => ref (getattr obj "__name__")
  end.

(** [[e.value for e in obj]] *)
Definition member_values (obj : PyVal) : Result Out :=
  do members <- iterate obj;
  do values <- mapM (fun e => getattr e "value") members;
  Ok (OList (map ORef values)).

(** [dataclasses.asdict(obj)]: the library's recursive copy of the fields.
    Its outcome for a dataclass instance is carried by the object, under the
    key [dataclasses.asdict], which is no attribute name; any other object
    is refused. *)
Definition asdict (obj : PyVal) : Result Out :=
  match assoc "dataclasses.asdict" (ob_meths obj) with
  | Some r => ref r
  | None => Raise (TypeError "asdict() should be called on dataclass instances")
  end.

(** A name bound by an [import]: a callable the module never calls through
    the type-handlers map; what calling it does is outside the model. *)
Definition imported (name : string) : GObj :=
  GFunc (MkFunc name [] (fun _ => Raise (RuntimeError "not modelled"))).

Definition use_type_default (obj : PyVal) : Result Out :=
  pred (isinstance obj "type").

Definition type_default (obj : PyVal) : Result Out :=
  name_attr obj.

Definition use_builtin_default (obj : PyVal) : Result Out :=
  pred (isinstance_any obj ["int"; "float"; "bool"; "str"; "list"; "dict"; "tuple"]).

Definition builtin_default (obj : PyVal) : Result Out :=
  Ok (ORef obj).

Definition use_namedtuple_default (obj : PyVal) : Result Out :=
  let attr := ["_field_defaults"; "_fields"; "_asdict"] in
  pred (isinstance obj "tuple" && forallb (hasattr obj) attr).

Definition namedtuple_default (obj : PyVal) : Result Out :=
  ref (call_method obj "_asdict").

Definition use_set_default (obj : PyVal) : Result Out :=
  pred (isinstance_any obj ["set"; "frozenset"; "Set"]).

Definition set_default (obj : PyVal) : Result Out :=
  list_ obj.

Definition use_bytes_default (obj : PyVal) : Result Out :=
  pred (isinstance_any obj ["bytes"; "bytearray"; "memoryview"]).

Definition bytes_default (obj : PyVal) : Result Out :=
  do s <- urlsafe_b64encode obj; Ok (OStr s).

Definition use_datetime_time_default (obj : PyVal) : Result Out :=
  pred (isinstance obj "time").

Definition datetime_time_default (obj : PyVal) : Result Out :=
  ref (call_method obj "isoformat").

Definition use_datetime_date_default (obj : PyVal) : Result Out :=
  pred (isinstance obj "date").

Definition datetime_date_default (obj : PyVal) : Result Out :=
  ref (call_method obj "isoformat").

Definition use_datetime_datetime_default (obj : PyVal) : Result Out :=
  pred (isinstance obj "datetime").

Definition datetime_datetime_default (obj : PyVal) : Result Out :=
  ref (call_method obj "isoformat").

Definition use_datetime_timedelta_default (obj : PyVal) : Result Out :=
  pred (isinstance obj "timedelta").

Definition datetime_timedelta_default (obj : PyVal) : Result Out :=
  do secs <- call_method obj "total_seconds"; str_out secs.

Definition use_datetime_timezone_default (obj : PyVal) : Result Out :=
  pred (isinstance obj "timezone").

Definition datetime_timezone_default (obj : PyVal) : Result Out :=
  ref (call_method obj "tzname").

Definition use_enum_default (obj : PyVal) : Result Out :=
  pred (isinstance_any obj ["Enum"; "EnumType"]
        || (isinstance obj "type" && class_issubclass obj "Enum")
        || is_ obj "EnumType"
        || is_ obj "EnumType").

Definition enum_default (obj : PyVal) : Result Out :=
  ref (getattr obj "value").

Definition use_enum_meta_default (obj : PyVal) : Result Out :=
  pred (is_ obj "EnumType").

Definition enum_meta_default (obj : PyVal) : Result Out :=
  member_values obj.

Definition use_enum_type_default (obj : PyVal) : Result Out :=
  pred (is_ obj "EnumType").

Definition enum_type_default (obj : PyVal) : Result Out :=
  member_values obj.

Definition use_int_enum_default (obj : PyVal) : Result Out :=
  pred (isinstance obj "IntEnum").

Definition int_enum_default (obj : PyVal) : Result Out :=
  ref (getattr obj "value").

Definition use_flag_default (obj : PyVal) : Result Out :=
  pred (isinstance obj "Flag").

Definition flag_default (obj : PyVal) : Result Out :=
  ref (getattr obj "value").

Definition use_int_flag_default (obj : PyVal) : Result Out :=
  pred (isinstance obj "IntFlag").

Definition int_flag_default (obj : PyVal) : Result Out :=
  ref (getattr obj "value").

Definition use_complex_default (obj : PyVal) : Result Out :=
  pred (isinstance obj "complex").

Definition complex_default (obj : PyVal) : Result Out :=
  do re <- getattr obj "real"; do im <- getattr obj "imag"; Ok (OTuple [ORef re; ORef im]).

Definition use_deque_default (obj : PyVal) : Result Out :=
  pred (isinstance obj "deque").

Definition deque_default (obj : PyVal) : Result Out :=
  list_ obj.

Definition use_exception_default (obj : PyVal) : Result Out :=
  pred (isinstance obj "BaseException").

Definition exception_default (obj : PyVal) : Result Out :=
  if hasattr obj "__traceback__" then
    do tb <- getattr obj "__traceback__";
    do lines <- format_exception (type_ obj) obj tb;
    Ok (OStr (strip (join lines)))
  else
    do s <- str obj; Ok (OStr (cls_name (ob_class obj) +:+ ": " +:+ s)).

Definition use_traceback_default (obj : PyVal) : Result Out :=
  pred (isinstance obj "TracebackType").

Definition traceback_default (obj : PyVal) : Result Out :=
  do lines <- format_tb obj; Ok (OStr (strip (join lines))).

Definition use_userstring_default (obj : PyVal) : Result Out :=
  pred (isinstance obj "UserString").

Definition userstring_default (obj : PyVal) : Result Out :=
  str_out obj.

Definition use_userlist_default (obj : PyVal) : Result Out :=
  pred (isinstance obj "UserList").

Definition userlist_default (obj : PyVal) : Result Out :=
  list_ obj.

Definition use_chainmap_default (obj : PyVal) : Result Out :=
  pred (isinstance obj "ChainMap").

Definition chainmap_default (obj : PyVal) : Result Out :=
  do maps <- getattr obj "maps"; do ms <- iterate maps; do ds <- mapM dict_ ms; Ok (OList ds).

Definition use_counter_default (obj : PyVal) : Result Out :=
  pred (isinstance obj "Counter").

Definition counter_default (obj : PyVal) : Result Out :=
  dict_ obj.

Definition use_defaultdict_default (obj : PyVal) : Result Out :=
  pred (isinstance obj "defaultdict").

Definition defaultdict_default (obj : PyVal) : Result Out :=
  dict_ obj.

Definition use_ordereddict_default (obj : PyVal) : Result Out :=
  pred (isinstance obj "OrderedDict").

Definition ordereddict_default (obj : PyVal) : Result Out :=
  dict_ obj.

Definition use_dataclass_default (obj : PyVal) : Result Out :=
  pred (hasattr obj "__dataclass_fields__" && negb (isinstance obj "type")).

Definition dataclass_default (obj : PyVal) : Result Out :=
  asdict obj.

Definition use_decimal_default (obj : PyVal) : Result Out :=
  pred (isinstance obj "Decimal").

Definition decimal_default (obj : PyVal) : Result Out :=
  do exponent <- as_tuple_exponent obj;
  match exponent with
  | EInt e => if 0 <=? e then int_ obj else float_ obj
  | _ => float_ obj
  end.

Definition use_context_default (obj : PyVal) : Result Out :=
  pred (isinstance obj "Context").

Definition context_default (obj : PyVal) : Result Out :=
  do prec <- getattr obj "prec";
  do rounding <- getattr obj "rounding";
  do Emin <- getattr obj "Emin";
  do Emax <- getattr obj "Emax";
  do capitals <- getattr obj "capitals";
  do clamp <- getattr obj "clamp";
  do flags <- getattr obj "flags";
  do flags_l <- list_ flags;
  do traps <- getattr obj "traps";
  do traps_l <- list_ traps;
  Ok (ODict [(OStr "prec", ORef prec); (OStr "rounding", ORef rounding);
             (OStr "Emin", ORef Emin); (OStr "Emax", ORef Emax);
             (OStr "capitals", ORef capitals); (OStr "clamp", ORef clamp);
             (OStr "flags", flags_l); (OStr "traps", traps_l)]).

Definition use_decimal_tuple_default (obj : PyVal) : Result Out :=
  pred (isinstance obj "DecimalTuple").

Definition decimal_tuple_default (obj : PyVal) : Result Out :=
  do sign <- getattr obj "sign";
  do digits <- getattr obj "digits";
  do digits_l <- list_ digits;
  do exponent <- getattr obj "exponent";
  Ok (ODict [(OStr "sign", ORef sign); (OStr "digits", digits_l);
             (OStr "exponent", ORef exponent)]).

Definition use_ipv6address_default (obj : PyVal) : Result Out :=
  pred (isinstance obj "IPv6Address").

Definition ipv6address_default (obj : PyVal) : Result Out :=
  str_out obj.

Definition use_ipv6interface_default (obj : PyVal) : Result Out :=
  pred (isinstance obj "IPv6Interface").

Definition ipv6interface_default (obj : PyVal) : Result Out :=
  str_out obj.

Definition use_ipv6network_default (obj : PyVal) : Result Out :=
  pred (isinstance obj "IPv6Network").

Definition ipv6network_default (obj : PyVal) : Result Out :=
  str_out obj.

Definition use_ipv4address_default (obj : PyVal) : Result Out :=
  pred (isinstance obj "IPv4Address").

Definition ipv4address_default (obj : PyVal) : Result Out :=
  str_out obj.

Definition use_ipv4interface_default (obj : PyVal) : Result Out :=
  pred (isinstance obj "IPv4Interface").

Definition ipv4interface_default (obj : PyVal) : Result Out :=
  str_out obj.

Definition use_ipv4network_default (obj : PyVal) : Result Out :=
  pred (isinstance obj "IPv4Network").

Definition ipv4network_default (obj : PyVal) : Result Out :=
  str_out obj.

Definition use_purepath_default (obj : PyVal) : Result Out :=
  pred (isinstance obj "PurePath").

Definition purepath_default (obj : PyVal) : Result Out :=
  str_out obj.

Definition use_path_default (obj : PyVal) : Result Out :=
  pred (isinstance obj "Path").

Definition path_default (obj : PyVal) : Result Out :=
  str_out obj.

Definition use_posixpath_default (obj : PyVal) : Result Out :=
  pred (isinstance obj "PosixPath").

Definition posixpath_default (obj : PyVal) : Result Out :=
  str_out obj.

Definition use_windowspath_default (obj : PyVal) : Result Out :=
  pred (isinstance obj "WindowsPath").

Definition windowspath_default (obj : PyVal) : Result Out :=
  str_out obj.

Definition use_pathlike_default (obj : PyVal) : Result Out :=
  pred (isinstance obj "PathLike").

Definition pathlike_default (obj : PyVal) : Result Out :=
  str_out obj.

Definition use_pattern_default (obj : PyVal) : Result Out :=
  pred (isinstance obj "Pattern").

Definition pattern_default (obj : PyVal) : Result Out :=
  ref (getattr obj "pattern").

Definition use_match_default (obj : PyVal) : Result Out :=
  pred (isinstance obj "Match").

Definition match_default (obj : PyVal) : Result Out :=
  do string <- getattr obj "string";
  do re <- getattr obj "re";
  do pattern <- getattr re "pattern";
  do groups <- call_method obj "groups";
  do groupdict <- call_method obj "groupdict";
  do start <- call_method obj "start";
  do end_ <- call_method obj "end";
  do span <- call_method obj "span";
  Ok (ODict [(OStr "string", ORef string); (OStr "re", ORef pattern);
             (OStr "groups", ORef groups); (OStr "groupdict", ORef groupdict);
             (OStr "start", ORef start); (OStr "end", ORef end_);
             (OStr "span", ORef span)]).

Definition use_uuid_default (obj : PyVal) : Result Out :=
  pred (isinstance obj "UUID").

Definition uuid_default (obj : PyVal) : Result Out :=
  str_out obj.

(** The function objects: name, annotations, body. *)

Definition recognizer (name ret : string) (body : PyVal -> Result Out) : Func :=
  MkFunc name [("obj", TClass "Any"); ("args", TClass "Any"); ("kwargs", TClass "Any");
               ("return", TOther ret)] body.

Definition converter (name : string) (obj_type ret : TypeExpr) (body : PyVal -> Result Out) : Func :=
  MkFunc name [("obj", obj_type); ("args", TClass "Any"); ("kwargs", TClass "Any");
               ("return", ret)] body.

Definition fn_use_type_default : Func :=
  recognizer "use_type_default" "TypeGuard[type]" use_type_default.
Definition fn_type_default : Func :=
  converter "type_default" (TClass "type") (TClass "str") type_default.

Definition fn_use_builtin_default : Func :=
  recognizer "use_builtin_default" "TypeGuard[int | float | bool | str | list | dict | tuple]" use_builtin_default.
Definition fn_builtin_default : Func :=
  converter "builtin_default" (TUnion ["int"; "float"; "bool"; "str"; "list"; "dict"; "tuple"]) (TClass "Any") builtin_default.

Definition fn_use_namedtuple_default : Func :=
  recognizer "use_namedtuple_default" "TypeGuard[NamedTupleProtocol]" use_namedtuple_default.
Definition fn_namedtuple_default : Func :=
  converter "namedtuple_default" (TClass "NamedTupleProtocol") (TOther "dict[str, Any]") namedtuple_default.

Definition fn_use_set_default : Func :=
  recognizer "use_set_default" "TypeGuard[set | frozenset | Set]" use_set_default.
Definition fn_set_default : Func :=
  converter "set_default" (TClass "set") (TClass "list") set_default.

Definition fn_use_bytes_default : Func :=
  recognizer "use_bytes_default" "TypeGuard[bytes | bytearray | memoryview]" use_bytes_default.
Definition fn_bytes_default : Func :=
  converter "bytes_default" (TClass "bytes") (TClass "str") bytes_default.

Definition fn_use_datetime_time_default : Func :=
  recognizer "use_datetime_time_default" "TypeGuard[time]" use_datetime_time_default.
Definition fn_datetime_time_default : Func :=
  converter "datetime_time_default" (TClass "time") (TClass "str") datetime_time_default.

Definition fn_use_datetime_date_default : Func :=
  recognizer "use_datetime_date_default" "TypeGuard[date]" use_datetime_date_default.
Definition fn_datetime_date_default : Func :=
  converter "datetime_date_default" (TClass "date") (TClass "str") datetime_date_default.

Definition fn_use_datetime_datetime_default : Func :=
  recognizer "use_datetime_datetime_default" "TypeGuard[datetime]" use_datetime_datetime_default.
Definition fn_datetime_datetime_default : Func :=
  converter "datetime_datetime_default" (TClass "datetime") (TClass "str") datetime_datetime_default.

Definition fn_use_datetime_timedelta_default : Func :=
  recognizer "use_datetime_timedelta_default" "TypeGuard[timedelta]" use_datetime_timedelta_default.
Definition fn_datetime_timedelta_default : Func :=
  converter "datetime_timedelta_default" (TClass "timedelta") (TClass "str") datetime_timedelta_default.

Definition fn_use_datetime_timezone_default : Func :=
  recognizer "use_datetime_timezone_default" "TypeGuard[timezone]" use_datetime_timezone_default.
Definition fn_datetime_timezone_default : Func :=
  converter "datetime_timezone_default" (TClass "timezone") (TClass "str") datetime_timezone_default.

Definition fn_use_enum_default : Func :=
  recognizer "use_enum_default" "TypeGuard[Enum]" use_enum_default.
Definition fn_enum_default : Func :=
  converter "enum_default" (TClass "Enum") (TOther "Any | list[Any]") enum_default.

Definition fn_use_enum_meta_default : Func :=
  recognizer "use_enum_meta_default" "TypeGuard[EnumMeta]" use_enum_meta_default.
Definition fn_enum_meta_default : Func :=
  converter "enum_meta_default" (TClass "EnumType") (TOther "list[Any]") enum_meta_default.

Definition fn_use_enum_type_default : Func :=
  recognizer "use_enum_type_default" "TypeGuard[EnumType]" use_enum_type_default.
Definition fn_enum_type_default : Func :=
  converter "enum_type_default" (TClass "EnumType") (TOther "list[Any]") enum_type_default.

Definition fn_use_int_enum_default : Func :=
  recognizer "use_int_enum_default" "TypeGuard[IntEnum]" use_int_enum_default.
Definition fn_int_enum_default : Func :=
  converter "int_enum_default" (TClass "IntEnum") (TClass "int") int_enum_default.

Definition fn_use_flag_default : Func :=
  recognizer "use_flag_default" "TypeGuard[Flag]" use_flag_default.
Definition fn_flag_default : Func :=
  converter "flag_default" (TClass "Flag") (TClass "int") flag_default.

Definition fn_use_int_flag_default : Func :=
  recognizer "use_int_flag_default" "TypeGuard[IntFlag]" use_int_flag_default.
Definition fn_int_flag_default : Func :=
  converter "int_flag_default" (TClass "IntFlag") (TClass "int") int_flag_default.

Definition fn_use_complex_default : Func :=
  recognizer "use_complex_default" "TypeGuard[complex]" use_complex_default.
Definition fn_complex_default : Func :=
  converter "complex_default" (TClass "complex") (TOther "tuple[float, float]") complex_default.

Definition fn_use_deque_default : Func :=
  recognizer "use_deque_default" "TypeGuard[deque]" use_deque_default.
Definition fn_deque_default : Func :=
  converter "deque_default" (TClass "deque") (TClass "list") deque_default.

Definition fn_use_exception_default : Func :=
  recognizer "use_exception_default" "TypeGuard[BaseException]" use_exception_default.
Definition fn_exception_default : Func :=
  converter "exception_default" (TClass "BaseException") (TClass "str") exception_default.

Definition fn_use_traceback_default : Func :=
  recognizer "use_traceback_default" "TypeGuard[TracebackType]" use_traceback_default.
Definition fn_traceback_default : Func :=
  converter "traceback_default" (TClass "TracebackType") (TClass "str") traceback_default.

Definition fn_use_userstring_default : Func :=
  recognizer "use_userstring_default" "TypeGuard[UserString]" use_userstring_default.
Definition fn_userstring_default : Func :=
  converter "userstring_default" (TClass "UserString") (TClass "str") userstring_default.

Definition fn_use_userlist_default : Func :=
  recognizer "use_userlist_default" "TypeGuard[UserList]" use_userlist_default.
Definition fn_userlist_default : Func :=
  converter "userlist_default" (TClass "UserList") (TClass "list") userlist_default.

Definition fn_use_chainmap_default : Func :=
  recognizer "use_chainmap_default" "TypeGuard[ChainMap]" use_chainmap_default.
Definition fn_chainmap_default : Func :=
  converter "chainmap_default" (TClass "ChainMap") (TOther "list[dict]") chainmap_default.

Definition fn_use_counter_default : Func :=
  recognizer "use_counter_default" "TypeGuard[Counter]" use_counter_default.
Definition fn_counter_default : Func :=
  converter "counter_default" (TClass "Counter") (TClass "dict") counter_default.

Definition fn_use_defaultdict_default : Func :=
  recognizer "use_defaultdict_default" "TypeGuard[defaultdict]" use_defaultdict_default.
Definition fn_defaultdict_default : Func :=
  converter "defaultdict_default" (TClass "defaultdict") (TClass "dict") defaultdict_default.

Definition fn_use_ordereddict_default : Func :=
  recognizer "use_ordereddict_default" "TypeGuard[OrderedDict]" use_ordereddict_default.
Definition fn_ordereddict_default : Func :=
  converter "ordereddict_default" (TClass "OrderedDict") (TClass "dict") ordereddict_default.

Definition fn_use_dataclass_default : Func :=
  recognizer "use_dataclass_default" "bool" use_dataclass_default.
Definition fn_dataclass_default : Func :=
  converter "dataclass_default" (TClass "DataclassProtocol") (TOther "dict[str, Any]") dataclass_default.

Definition fn_use_decimal_default : Func :=
  recognizer "use_decimal_default" "TypeGuard[Decimal]" use_decimal_default.
Definition fn_decimal_default : Func :=
  converter "decimal_default" (TClass "Decimal") (TOther "int | float") decimal_default.

Definition fn_use_context_default : Func :=
  recognizer "use_context_default" "TypeGuard[Context]" use_context_default.
Definition fn_context_default : Func :=
  converter "context_default" (TClass "Context") (TOther "dict[str, Any]") context_default.

Definition fn_use_decimal_tuple_default : Func :=
  recognizer "use_decimal_tuple_default" "TypeGuard[DecimalTuple]" use_decimal_tuple_default.
Definition fn_decimal_tuple_default : Func :=
  converter "decimal_tuple_default" (TClass "DecimalTuple") (TOther "dict[str, Any]") decimal_tuple_default.

Definition fn_use_ipv6address_default : Func :=
  recognizer "use_ipv6address_default" "TypeGuard[IPv6Address]" use_ipv6address_default.
Definition fn_ipv6address_default : Func :=
  converter "ipv6address_default" (TClass "IPv6Address") (TClass "str") ipv6address_default.

Definition fn_use_ipv6interface_default : Func :=
  recognizer "use_ipv6interface_default" "TypeGuard[IPv6Interface]" use_ipv6interface_default.
Definition fn_ipv6interface_default : Func :=
  converter "ipv6interface_default" (TClass "IPv6Interface") (TClass "str") ipv6interface_default.

Definition fn_use_ipv6network_default : Func :=
  recognizer "use_ipv6network_default" "TypeGuard[IPv6Network]" use_ipv6network_default.
Definition fn_ipv6network_default : Func :=
  converter "ipv6network_default" (TClass "IPv6Network") (TClass "str") ipv6network_default.

Definition fn_use_ipv4address_default : Func :=
  recognizer "use_ipv4address_default" "TypeGuard[IPv4Address]" use_ipv4address_default.
Definition fn_ipv4address_default : Func :=
  converter "ipv4address_default" (TClass "IPv4Address") (TClass "str") ipv4address_default.

Definition fn_use_ipv4interface_default : Func :=
  recognizer "use_ipv4interface_default" "TypeGuard[IPv4Interface]" use_ipv4interface_default.
Definition fn_ipv4interface_default : Func :=
  converter "ipv4interface_default" (TClass "IPv4Interface") (TClass "str") ipv4interface_default.

Definition fn_use_ipv4network_default : Func :=
  recognizer "use_ipv4network_default" "TypeGuard[IPv4Network]" use_ipv4network_default.
Definition fn_ipv4network_default : Func :=
  converter "ipv4network_default" (TClass "IPv4Network") (TClass "str") ipv4network_default.

Definition fn_use_purepath_default : Func :=
  recognizer "use_purepath_default" "TypeGuard[PurePath]" use_purepath_default.
Definition fn_purepath_default : Func :=
  converter "purepath_default" (TClass "PurePath") (TClass "str") purepath_default.

Definition fn_use_path_default : Func :=
  recognizer "use_path_default" "TypeGuard[Path]" use_path_default.
Definition fn_path_default : Func :=
  converter "path_default" (TClass "Path") (TClass "str") path_default.

Definition fn_use_posixpath_default : Func :=
  recognizer "use_posixpath_default" "TypeGuard[PosixPath]" use_posixpath_default.
Definition fn_posixpath_default : Func :=
  converter "posixpath_default" (TClass "PosixPath") (TClass "str") posixpath_default.

Definition fn_use_windowspath_default : Func :=
  recognizer "use_windowspath_default" "TypeGuard[WindowsPath]" use_windowspath_default.
Definition fn_windowspath_default : Func :=
  converter "windowspath_default" (TClass "WindowsPath") (TClass "str") windowspath_default.

Definition fn_use_pathlike_default : Func :=
  recognizer "use_pathlike_default" "TypeGuard[PathLike]" use_pathlike_default.
Definition fn_pathlike_default : Func :=
  converter "pathlike_default" (TClass "PathLike") (TClass "str") pathlike_default.

Definition fn_use_pattern_default : Func :=
  recognizer "use_pattern_default" "TypeGuard[Pattern]" use_pattern_default.
Definition fn_pattern_default : Func :=
  converter "pattern_default" (TClass "Pattern") (TClass "str") pattern_default.

Definition fn_use_match_default : Func :=
  recognizer "use_match_default" "TypeGuard[Match]" use_match_default.
Definition fn_match_default : Func :=
  converter "match_default" (TClass "Match") (TOther "dict[str, Any]") match_default.

Definition fn_use_uuid_default : Func :=
  recognizer "use_uuid_default" "TypeGuard[UUID]" use_uuid_default.
Definition fn_uuid_default : Func :=
  converter "uuid_default" (TClass "UUID") (TClass "str") uuid_default.

(** [globals()] of the module when [_get_typemap] runs, in definition order:
    the module attributes, the imported names, [__all__], the functions, and
    [_get_typemap] itself. *)
Definition module_globals : list (string * GObj) :=
  [ ("__name__", GData "__name__" true);
    ("__doc__", GData "__doc__" true);
    ("__package__", GData "__package__" true);
    ("__loader__", GData "__loader__" true);
    ("__spec__", GData "__spec__" true);
    ("__file__", GData "__file__" true);
    ("__cached__", GData "__cached__" true);
    ("__builtins__", GData "__builtins__" true);
    ("urlsafe_b64encode", imported "urlsafe_b64encode");
    ("ChainMap", imported "ChainMap");
    ("Counter", imported "Counter");
    ("OrderedDict", imported "OrderedDict");
    ("UserList", imported "UserList");
    ("UserString", imported "UserString");
    ("defaultdict", imported "defaultdict");
    ("deque", imported "deque");
    ("Set", imported "Set");
    ("asdict", imported "asdict");
    ("date", imported "date");
    ("datetime", imported "datetime");
    ("time", imported "time");
    ("timedelta", imported "timedelta");
    ("timezone", imported "timezone");
    ("Context", imported "Context");
    ("Decimal", imported "Decimal");
    ("DecimalTuple", imported "DecimalTuple");
    ("Enum", imported "Enum");
    ("EnumMeta", imported "EnumMeta");
    ("EnumType", imported "EnumType");
    ("Flag", imported "Flag");
    ("IntEnum", imported "IntEnum");
    ("IntFlag", imported "IntFlag");
    ("lru_cache", imported "lru_cache");
    ("IPv4Address", imported "IPv4Address");
    ("IPv4Interface", imported "IPv4Interface");
    ("IPv4Network", imported "IPv4Network");
    ("IPv6Address", imported "IPv6Address");
    ("IPv6Interface", imported "IPv6Interface");
    ("IPv6Network", imported "IPv6Network");
    ("PathLike", imported "PathLike");
    ("Path", imported "Path");
    ("PosixPath", imported "PosixPath");
    ("PurePath", imported "PurePath");
    ("WindowsPath", imported "WindowsPath");
    ("Match", imported "Match");
    ("Pattern", imported "Pattern");
    ("format_exception", imported "format_exception");
    ("format_tb", imported "format_tb");
    ("TracebackType", imported "TracebackType");
    ("Any", imported "Any");
    ("TypeGuard", imported "TypeGuard");
    ("UUID", imported "UUID");
    ("TypeHandlersMap", imported "TypeHandlersMap");
    ("DataclassProtocol", imported "DataclassProtocol");
    ("NamedTupleProtocol", imported "NamedTupleProtocol");
    ("__all__", GData "__all__" true);
    ("use_type_default", GFunc fn_use_type_default);
    ("type_default", GFunc fn_type_default);
    ("use_builtin_default", GFunc fn_use_builtin_default);
    ("builtin_default", GFunc fn_builtin_default);
    ("use_namedtuple_default", GFunc fn_use_namedtuple_default);
    ("namedtuple_default", GFunc fn_namedtuple_default);
    ("use_set_default", GFunc fn_use_set_default);
    ("set_default", GFunc fn_set_default);
    ("use_bytes_default", GFunc fn_use_bytes_default);
    ("bytes_default", GFunc fn_bytes_default);
    ("use_datetime_time_default", GFunc fn_use_datetime_time_default);
    ("datetime_time_default", GFunc fn_datetime_time_default);
    ("use_datetime_date_default", GFunc fn_use_datetime_date_default);
    ("datetime_date_default", GFunc fn_datetime_date_default);
    ("use_datetime_datetime_default", GFunc fn_use_datetime_datetime_default);
    ("datetime_datetime_default", GFunc fn_datetime_datetime_default);
    ("use_datetime_timedelta_default", GFunc fn_use_datetime_timedelta_default);
    ("datetime_timedelta_default", GFunc fn_datetime_timedelta_default);
    ("use_datetime_timezone_default", GFunc fn_use_datetime_timezone_default);
    ("datetime_timezone_default", GFunc fn_datetime_timezone_default);
    ("use_enum_default", GFunc fn_use_enum_default);
    ("enum_default", GFunc fn_enum_default);
    ("use_enum_meta_default", GFunc fn_use_enum_meta_default);
    ("enum_meta_default", GFunc fn_enum_meta_default);
    ("use_enum_type_default", GFunc fn_use_enum_type_default);
    ("enum_type_default", GFunc fn_enum_type_default);
    ("use_int_enum_default", GFunc fn_use_int_enum_default);
    ("int_enum_default", GFunc fn_int_enum_default);
    ("use_flag_default", GFunc fn_use_flag_default);
    ("flag_default", GFunc fn_flag_default);
    ("use_int_flag_default", GFunc fn_use_int_flag_default);
    ("int_flag_default", GFunc fn_int_flag_default);
    ("use_complex_default", GFunc fn_use_complex_default);
    ("complex_default", GFunc fn_complex_default);
    ("use_deque_default", GFunc fn_use_deque_default);
    ("deque_default", GFunc fn_deque_default);
    ("use_exception_default", GFunc fn_use_exception_default);
    ("exception_default", GFunc fn_exception_default);
    ("use_traceback_default", GFunc fn_use_traceback_default);
    ("traceback_default", GFunc fn_traceback_default);
    ("use_userstring_default", GFunc fn_use_userstring_default);
    ("userstring_default", GFunc fn_userstring_default);
    ("use_userlist_default", GFunc fn_use_userlist_default);
    ("userlist_default", GFunc fn_userlist_default);
    ("use_chainmap_default", GFunc fn_use_chainmap_default);
    ("chainmap_default", GFunc fn_chainmap_default);
    ("use_counter_default", GFunc fn_use_counter_default);
    ("counter_default", GFunc fn_counter_default);
    ("use_defaultdict_default", GFunc fn_use_defaultdict_default);
    ("defaultdict_default", GFunc fn_defaultdict_default);
    ("use_ordereddict_default", GFunc fn_use_ordereddict_default);
    ("ordereddict_default", GFunc fn_ordereddict_default);
    ("use_dataclass_default", GFunc fn_use_dataclass_default);
    ("dataclass_default", GFunc fn_dataclass_default);
    ("use_decimal_default", GFunc fn_use_decimal_default);
    ("decimal_default", GFunc fn_decimal_default);
    ("use_context_default", GFunc fn_use_context_default);
    ("context_default", GFunc fn_context_default);
    ("use_decimal_tuple_default", GFunc fn_use_decimal_tuple_default);
    ("decimal_tuple_default", GFunc fn_decimal_tuple_default);
    ("use_ipv6address_default", GFunc fn_use_ipv6address_default);
    ("ipv6address_default", GFunc fn_ipv6address_default);
    ("use_ipv6interface_default", GFunc fn_use_ipv6interface_default);
    ("ipv6interface_default", GFunc fn_ipv6interface_default);
    ("use_ipv6network_default", GFunc fn_use_ipv6network_default);
    ("ipv6network_default", GFunc fn_ipv6network_default);
    ("use_ipv4address_default", GFunc fn_use_ipv4address_default);
    ("ipv4address_default", GFunc fn_ipv4address_default);
    ("use_ipv4interface_default", GFunc fn_use_ipv4interface_default);
    ("ipv4interface_default", GFunc fn_ipv4interface_default);
    ("use_ipv4network_default", GFunc fn_use_ipv4network_default);
    ("ipv4network_default", GFunc fn_ipv4network_default);
    ("use_purepath_default", GFunc fn_use_purepath_default);
    ("purepath_default", GFunc fn_purepath_default);
    ("use_path_default", GFunc fn_use_path_default);
    ("path_default", GFunc fn_path_default);
    ("use_posixpath_default", GFunc fn_use_posixpath_default);
    ("posixpath_default", GFunc fn_posixpath_default);
    ("use_windowspath_default", GFunc fn_use_windowspath_default);
    ("windowspath_default", GFunc fn_windowspath_default);
    ("use_pathlike_default", GFunc fn_use_pathlike_default);
    ("pathlike_default", GFunc fn_pathlike_default);
    ("use_pattern_default", GFunc fn_use_pattern_default);
    ("pattern_default", GFunc fn_pattern_default);
    ("use_match_default", GFunc fn_use_match_default);
    ("match_default", GFunc fn_match_default);
    ("use_uuid_default", GFunc fn_use_uuid_default);
    ("uuid_default", GFunc fn_uuid_default);
    ("_get_typemap", imported "_get_typemap") ].

(** [_get_typemap()]: the loop over [globals().items()]. *)
Fixpoint _get_typemap_loop (globals items : list (string * GObj))
    (mapping : TypeHandlersMap) : TypeHandlersMap :=
  match items with
  | [] => mapping
  | (name, func) :: rest =>
      let mapping' :=
        if startswith "use_" name then
          let encoder_name := replace "use_" "" name in
          match assoc encoder_name globals with
          | Some encoder_func =>
              if gobj_truth encoder_func then
                match callable encoder_func with
                | Some f => setitem func f mapping
                | None => mapping
                end
              else mapping
          | None => mapping
          end
        else mapping in
      _get_typemap_loop globals rest mapping'
  end.

Definition _get_typemap (globals : list (string * GObj)) : TypeHandlersMap :=
  _get_typemap_loop globals globals [].

Definition TYPEMAP : TypeHandlersMap := _get_typemap module_globals.

(** ** [arclog/sd/__init__.py] *)

(** What [functools.singledispatch] keeps for a class: the decorated
    function itself (under [object]) or a registered function. *)
Inductive Impl :=
| Base
| Registered (f : Func).

(** The module's state: the registry of [serialize], [_validation_cache]
    and [_excepted_handlers]. *)
Record SdState := MkSd {
  registry : gmap string Impl;
  _validation_cache : gmap string bool;
  _excepted_handlers : TypeHandlersMap
}.

Definition initial_state : SdState :=
  MkSd {[ "object" := Base ]} ∅ [].

Definition unknown_default (obj : PyVal) : Result string :=
  match str obj with
  | Ok s => Ok s
  | Raise e =>
      if caught_by "Exception" e then
        match repr obj with
        | Ok s => Ok s
        | Raise e' =>
            if caught_by "Exception" e' then Ok "__failed_to_encode__"
            else Raise e'
        end
      else Raise e
  end.

Definition in_registry (reg : gmap string Impl) (t : string) : bool :=
  match reg !! t with Some _ => true | None => false end.

(** [functools._find_impl]: the first class of the walk that is registered;
    the dispatch is ambiguous when the next class is registered too, both are
    virtual bases, and the first is not a subclass of the second. *)
Fixpoint _find_impl (reg : gmap string Impl) (mro : list MroEntry) : Result Impl :=
  match mro with
  | [] => Raise (TypeError "'NoneType' object is not callable")
  | t :: rest =>
      match reg !! me_class t with
      | Some impl =>
          match rest with
          | t' :: _ =>
              if in_registry reg (me_class t') && negb (me_real t')
                 && negb (me_real t) && negb (mem (me_class t') (me_supers t))
              then Raise (RuntimeError "Ambiguous dispatch")
              else Ok impl
          | [] => Ok impl
          end
      | None => _find_impl reg rest
      end
  end.

Definition dispatch (reg : gmap string Impl) (cls : PyClass) : Result Impl :=
  _find_impl reg (cls_mro cls).

(** [serialize.register(typ, v)] *)
Definition register (typ : TypeExpr) (v : Func) (reg : gmap string Impl)
    : Result (gmap string Impl) :=
  match typ with
  | TClass c => Ok (<[ c := Registered v ]> reg)
  | TUnion cs => Ok (fold_left (fun r c => <[ c := Registered v ]> r) cs reg)
  | TOther _ => Raise (TypeError "Invalid first argument to `register()`")
  end.

Section Dispatch.

(** [from arclog.sd.serializers import TYPEMAP] *)
Variable TYPEMAP : TypeHandlersMap.

(** The body of [serialize], the implementation for [object]: the loop over
    [TYPEMAP.items()] and what follows it. *)
Fixpoint serialize_object (items : TypeHandlersMap) (obj : PyVal) (_raise : bool)
    : Result Out :=
  match items with
  | [] =>
      if _raise then Raise NotImplementedError
      else do s <- unknown_default obj; Ok (OStr s)
  | (k, v) :: rest =>
      do r <- call k obj;
      if truthy r then fn_call v obj
      else serialize_object rest obj _raise
  end.

(** [serialize(obj, _raise=...)] as decorated by [singledispatch]: dispatch
    on the class of the first argument. *)
Definition serialize (st : SdState) (obj : PyVal) (_raise : bool) : Result Out :=
  do impl <- dispatch (registry st) (type_ obj);
  match impl with
  | Base => serialize_object TYPEMAP obj _raise
  | Registered f => fn_call f obj
  end.

(** [_validation_cache[fn]]: reading a [defaultdict(bool)] stores [False]
    for a key that is missing. *)
Definition cache_read (fn : GObj) (st : SdState) : bool * SdState :=
  match _validation_cache st !! gobj_id fn with
  | Some b => (b, st)
  | None =>
      (false, MkSd (registry st) (<[ gobj_id fn := false ]> (_validation_cache st))
                   (_excepted_handlers st))
  end.

Definition _validate_type_handler (fn : GObj) (st : SdState) : SdState * Result unit :=
  match get_type_hints fn with
  | Raise e => (st, Raise e)
  | Ok annotations =>
      match assoc "obj" annotations with
      | None => (st, Raise (MissingAnnotationError fn))
      | Some _ =>
          (MkSd (registry st) (<[ gobj_id fn := true ]> (_validation_cache st))
                (_excepted_handlers st), Ok tt)
      end
  end.

(** [if _validation_cache[fn] is not True: _validate_type_handler(fn)] *)
Definition validate_unless_cached (fn : GObj) (st : SdState) : SdState * Result unit :=
  let '(hit, st1) := cache_read fn st in
  if hit then (st1, Ok tt) else _validate_type_handler fn st1.

Fixpoint _validate_typemap (typemap : TypeHandlersMap) (st : SdState)
    : SdState * Result unit :=
  match typemap with
  | [] => (st, Ok tt)
  | (k, v) :: rest =>
      let '(st1, r1) := validate_unless_cached (GFunc v) st in
      match r1 with
      | Raise e => (st1, Raise e)
      | Ok _ =>
          let '(st2, r2) := validate_unless_cached k st1 in
          match r2 with
          | Raise e => (st2, Raise e)
          | Ok _ => _validate_typemap rest st2
          end
      end
  end.

(** The registration loop of [_register_singledispatch]. *)
Fixpoint register_all (items : TypeHandlersMap) (st : SdState) : SdState * Result unit :=
  match items with
  | [] => (st, Ok tt)
  | (k, v) :: rest =>
      match assoc "obj" (fn_hints v) with
      | None => (st, Raise (KeyError "'obj'"))
      | Some typ =>
          match register typ v (registry st) with
          | Ok reg =>
              register_all rest (MkSd reg (_validation_cache st) (_excepted_handlers st))
          | Raise e =>
              if caught_by "TypeError" e then
                register_all rest
                  (MkSd (registry st) (_validation_cache st)
                        (setitem k v (_excepted_handlers st)))
              else (st, Raise e)
          end
      end
  end.

Definition _register_singledispatch (st : SdState) : SdState * Result unit :=
  let '(st1, r) := _validate_typemap TYPEMAP st in
  match r with
  | Raise e => (st1, Raise e)
  | Ok _ => register_all TYPEMAP st1
  end.

End Dispatch.

(** The module after import: [_register_singledispatch()] has run once on
    the catalog. *)
Definition sd : SdState := fst (_register_singledispatch TYPEMAP initial_state).

(** ** Some classes and objects *)

Definition real_entry (name : string) : MroEntry := MkEntry name true [].

(** A class with no virtual base among the registered classes. *)
Definition class_ (name module : string) (bases abcs : list string) : PyClass :=
  MkClass name module (map real_entry (name :: bases ++ ["object"])) abcs.

Definition NoneType : PyClass := class_ "NoneType" "builtins" [] [].
Definition None_ : PyVal := MkObj NoneType SNone [] [] (Ok "None") (Ok "None").

Definition int_class : PyClass := class_ "int" "builtins" [] ["Hashable"].
Definition int_obj (z : Z) : PyVal :=
  MkObj int_class (SInt z) [] [] (Ok (str_of_Z z)) (Ok (str_of_Z z)).

Definition set_abcs : list string :=
  ["Set"; "Collection"; "Sized"; "Iterable"; "Container"].

Definition set_class : PyClass := class_ "set" "builtins" [] ("MutableSet" :: set_abcs).
Definition frozenset_class : PyClass :=
  class_ "frozenset" "builtins" [] ("Hashable" :: set_abcs).
Definition deque_class : PyClass :=
  class_ "deque" "collections" [] ["MutableSequence"; "Sequence"; "Reversible";
                                   "Collection"; "Sized"; "Iterable"; "Container"].

(** A container of the given class whose iteration yields [items]; [text] is
    what [str] and [repr] print. *)
Definition container (c : PyClass) (items : list PyVal) (text : string) : PyVal :=
  MkObj c (SItems items) [] [] (Ok text) (Ok text).

(** [{1, 2, 3}] *)
Definition set_of_three : PyVal :=
  container set_class [int_obj 1; int_obj 2; int_obj 3] "{1, 2, 3}".

(** [class Tags(set): pass], and [Tags([7])]. *)
Definition Tags : PyClass := class_ "Tags" "__main__" ["set"] ("MutableSet" :: set_abcs).
Definition tags_obj : PyVal := container Tags [int_obj 7] "Tags({7})".

Definition Decimal_class : PyClass := class_ "Decimal" "decimal" [] ["Number"; "Hashable"].
Definition Decimal_obj (sign : bool) (digits : list Z) (e : DecExp) (text : string) : PyVal :=
  MkObj Decimal_class (SDecimal sign digits e) [] []
        (Ok text) (Ok ("Decimal('" +:+ text +:+ "')")).

(** [Decimal('1E+2')], [Decimal('-2.50')] and [Decimal('sNaN')] *)
Definition dec_1e2 : PyVal := Decimal_obj false [1] (EInt 2) "1E+2".
Definition dec_neg_2_50 : PyVal := Decimal_obj true [2; 5; 0] (EInt (-2)) "-2.50".
Definition dec_snan : PyVal := Decimal_obj false [] ESNaN "sNaN".

(** An exception instance: [__traceback__] always exists, and is [None]
    until the exception has been raised. *)
Definition exception_class (name module : string) (bases : list string) : PyClass :=
  class_ name module (bases ++ ["Exception"; "BaseException"]) [].

Definition traceback_class : PyClass := class_ "TracebackType" "builtins" [] [].
Definition traceback_obj (frames : list string) : PyVal :=
  MkObj traceback_class (STraceback frames) [] []
        (Ok "<traceback object>") (Ok "<traceback object>").

Definition exception_obj (c : PyClass) (message : string) (tb : PyVal) : PyVal :=
  MkObj c SOther [("__traceback__", tb)] [] (Ok message)
        (Ok (cls_name c +:+ "('" +:+ message +:+ "')")).

(** [ArcLogError('boom')] and [ValueError()], never raised. *)
Definition ArcLogError_class : PyClass := exception_class "ArcLogError" "arclog.exceptions" [].
Definition ValueError_class : PyClass := exception_class "ValueError" "builtins" [].
Definition arclog_error_boom : PyVal := exception_obj ArcLogError_class "boom" None_.
Definition value_error_empty : PyVal :=
  MkObj ValueError_class SOther [("__traceback__", None_)] [] (Ok "") (Ok "ValueError()").

(** [ValueError('boom')] caught after being raised from one frame. *)
Definition one_frame : list string :=
  ["  File " +:+ dq +:+ "app.py" +:+ dq +:+ ", line 3, in <module>" +:+ nl
   +:+ "    raise ValueError('boom')" +:+ nl].
Definition value_error_raised : PyVal :=
  exception_obj ValueError_class "boom" (traceback_obj one_frame).

(** [class Mute: __str__ = __repr__ = <raises ValueError>], and
    [class Quit: __str__ = <raises SystemExit>]. *)
Definition Mute : PyClass := class_ "Mute" "__main__" [] [].
Definition mute_obj : PyVal :=
  MkObj Mute SOther [] [] (Raise (ValueError "no str")) (Raise (ValueError "no repr")).

Definition SystemExit : Exn := MkExn ["SystemExit"; "BaseException"; "object"] [].
Definition Quit : PyClass := class_ "Quit" "__main__" [] [].
Definition quit_obj : PyVal :=
  MkObj Quit SOther [] [] (Raise SystemExit) (Ok "<Quit object>").

(** [class Blob(bytearray): pass]; [b = Blob(b'ab')] with the instance
    attribute [b.__dataclass_fields__ = {}]. *)
Definition Blob : PyClass :=
  class_ "Blob" "__main__" ["bytearray"] ["MutableSequence"; "Sequence"].
Definition empty_dict : PyVal :=
  MkObj (class_ "dict" "builtins" [] ["MutableMapping"; "Mapping"]) (SMapping [])
        [] [] (Ok "{}") (Ok "{}").
Definition blob_obj : PyVal :=
  MkObj Blob (SBytes [97; 98]%N) [("__dataclass_fields__", empty_dict)] []
        (Ok "Blob(b'ab')") (Ok "Blob(b'ab')").

(** A dataclass that also defines [_fields], [_field_defaults] and [_asdict]
    without deriving from [tuple]: a virtual subclass of both
    [NamedTupleProtocol] and [DataclassProtocol], which are unrelated and
    come next to each other in the walk of the class. *)
Definition protocol_entry (name : string) : MroEntry :=
  MkEntry name false [name; "Protocol"; "Generic"; "object"].

Definition Both : PyClass :=
  MkClass "Both" "__main__"
    [real_entry "Both"; protocol_entry "NamedTupleProtocol";
     protocol_entry "DataclassProtocol"; MkEntry "Protocol" false ["Protocol"; "Generic"; "object"];
     MkEntry "Generic" false ["Generic"; "object"]; real_entry "object"] [].
Definition tuple_class : PyClass :=
  class_ "tuple" "builtins" [] ["Sequence"; "Reversible"; "Collection"; "Hashable"].
Definition empty_tuple : PyVal := container tuple_class [] "()".
Definition both_obj : PyVal :=
  MkObj Both SOther
        [("__dataclass_fields__", empty_dict); ("_fields", empty_tuple);
         ("_field_defaults", empty_dict)]
        [("_asdict", Ok empty_dict)] (Ok "Both()") (Ok "Both()").

(** [Point = namedtuple('Point', 'x y')] and [Point(1, 2)]: the protocol
    comes before [tuple] in the walk. *)
Definition Point : PyClass :=
  MkClass "Point" "__main__"
    [real_entry "Point"; protocol_entry "NamedTupleProtocol";
     MkEntry "Protocol" false ["Protocol"; "Generic"; "object"];
     MkEntry "Generic" false ["Generic"; "object"];
     real_entry "tuple"; real_entry "object"]
    ["Sequence"; "Reversible"; "Collection"; "Sized"; "Iterable"; "Container"; "Hashable"].
Definition str_obj (s : string) : PyVal :=
  MkObj (class_ "str" "builtins" [] ["Sequence"; "Hashable"]) (SStr s) [] []
        (Ok s) (Ok ("'" +:+ s +:+ "'")).
Definition point_dict : PyVal :=
  MkObj (class_ "dict" "builtins" [] ["MutableMapping"; "Mapping"])
        (SMapping [(str_obj "x", int_obj 1); (str_obj "y", int_obj 2)])
        [] [] (Ok "{'x': 1, 'y': 2}") (Ok "{'x': 1, 'y': 2}").
Definition point_obj : PyVal :=
  MkObj Point (SItems [int_obj 1; int_obj 2])
        [("_fields", container tuple_class [str_obj "x"; str_obj "y"] "('x', 'y')");
         ("_field_defaults", empty_dict)]
        [("_asdict", Ok point_dict)] (Ok "Point(x=1, y=2)") (Ok "Point(x=1, y=2)").

(** ** Vocabulary of the statements *)

(** The converter the recognizers of [items] select for [obj]: the one
    paired with the first recognizer that returns a true value. *)
Fixpoint first_match (items : TypeHandlersMap) (obj : PyVal) : Result (option Func) :=
  match items with
  | [] => Ok None
  | (k, v) :: rest =>
      do r <- call k obj;
      if truthy r then Ok (Some v) else first_match rest obj
  end.

(** The converter [serialize] selects: the registered one the dispatch on
    the class finds, else the one the recognizers select, if any. *)
Definition resolve (tm : TypeHandlersMap) (st : SdState) (obj : PyVal)
    : Result (option Func) :=
  do impl <- dispatch (registry st) (type_ obj);
  match impl with
  | Base => first_match tm obj
  | Registered f => Ok (Some f)
  end.

(** The name of the function the registry holds. *)
Definition impl_name (i : Impl) : string :=
  match i with
  | Base => "serialize"
  | Registered f => fn_name f
  end.

(** A conversion to text that, if it raises, raises something
    [except Exception] catches. *)
Definition raises_only_Exception (r : Result string) : Prop :=
  match r with
  | Ok _ => True
  | Raise e => caught_by "Exception" e = true
  end.

(** The fallback text: [str], else [repr], else the sentinel. *)
Definition fallback_text (obj : PyVal) : string :=
  match str obj with
  | Ok s => s
  | Raise _ =>
      match repr obj with
      | Ok s => s
      | Raise _ => "__failed_to_encode__"
      end
  end.

(** The exception names the class of [obj]: one of its arguments contains
    the class name. *)
Fixpoint contains (sub s : string) : bool :=
  String.prefix sub s ||
  match s with
  | EmptyString => false
  | String _ rest => contains sub rest
  end.

Definition names_type_of (e : Exn) (obj : PyVal) : bool :=
  existsb (contains (cls_name (type_ obj))) (exn_args e).

(** The function declares a type for its parameter [obj]. *)
Definition has_obj (g : GObj) : bool :=
  match g with
  | GFunc f => match assoc "obj" (fn_hints f) with Some _ => true | None => false end
  | GData _ _ => false
  end.

Definition is_function (g : GObj) : Prop := exists f, g = GFunc f.

(** The functions of a map in the order [_validate_typemap] visits them:
    for each pair the converter, then the recognizer. *)
Definition handlers (tm : TypeHandlersMap) : list GObj :=
  flat_map (fun kv => [GFunc (snd kv); fst kv]) tm.

(** Identifiers stand for object identity: two handlers with the same
    identifier are the same object. *)
Definition ids_faithful (hs : list GObj) : Prop :=
  forall g g', In g hs -> In g' hs -> gobj_id g = gobj_id g' -> g = g'.

(** The cache marks as validated only handlers that declare [obj]. *)
Definition cache_sound (hs : list GObj) (st : SdState) : Prop :=
  forall g, In g hs -> _validation_cache st !! gobj_id g = Some true -> has_obj g = true.

(** [def use_untyped_default(obj: Any, ...) -> bool: return False] and
    [def untyped_default(obj, *args: Any, **kwargs: Any) -> str: return str(obj)],
    a converter whose parameter [obj] has no declared type. *)
Definition fn_use_untyped_default : Func :=
  recognizer "use_untyped_default" "bool" (fun _ => pred false).
Definition fn_untyped_default : Func :=
  MkFunc "untyped_default"
         [("args", TClass "Any"); ("kwargs", TClass "Any"); ("return", TClass "str")]
         str_out.

(** A catalog of two pairs, the second with the untyped converter. *)
Definition untyped_catalog : TypeHandlersMap :=
  [(GFunc fn_use_uuid_default, fn_uuid_default);
   (GFunc fn_use_untyped_default, fn_untyped_default)].

(** The text ['<ClassName>: <message>'] for an exception. *)
Definition class_colon_message (obj : PyVal) : Result Out :=
  do s <- str obj; Ok (OStr (cls_name (ob_class obj) +:+ ": " +:+ s)).

(** The entry [(k, v)] of a map built from [globals] comes from a name that
    starts with [use_], bound to [k], whose name without [use_] is bound in
    [globals] to the callable [v]. *)
Definition comes_from (globals : list (string * GObj)) (k : GObj) (v : Func) : Prop :=
  exists (name : string) (k0 enc : GObj),
    In (name, k0) globals
    /\ gobj_id k0 = gobj_id k
    /\ startswith "use_" name = true
    /\ assoc (replace "use_" "" name) globals = Some enc
    /\ gobj_truth enc = true
    /\ callable enc = Some v.

(** A module where [use_orphan_default] has no converter, and
    [use_flagged_default] has a name bound to a value that is not callable. *)
Definition orphan_globals : list (string * GObj) :=
  [("use_orphan_default", GFunc fn_use_untyped_default);
   ("use_flagged_default", GFunc fn_use_uuid_default);
   ("flagged_default", GData "flagged_default" true);
   ("use_uuid_default", GFunc fn_use_uuid_default);
   ("uuid_default", GFunc fn_uuid_default)].

(** The loop of [serialize] again, recording the names of the recognizers
    and of the converter it calls, in order. *)
Fixpoint serialize_object_calls (items : TypeHandlersMap) (obj : PyVal) (_raise : bool)
    : list string * Result Out :=
  match items with
  | [] =>
      ([], if _raise then Raise NotImplementedError
           else do s <- unknown_default obj; Ok (OStr s))
  | (k, v) :: rest =>
      match call k obj with
      | Raise e => ([gobj_id k], Raise e)
      | Ok r =>
          if truthy r then ([gobj_id k; fn_name v], fn_call v obj)
          else
            let '(calls, result) := serialize_object_calls rest obj _raise in
            (gobj_id k :: calls, result)
      end
  end.

(** The converter declares the class [T] for [obj]: its annotation is [T],
    or a union one of whose members is [T]. *)
Definition declares (v : Func) (T : string) : bool :=
  match assoc "obj" (fn_hints v) with
  | Some (TClass c) => String.eqb c T
  | Some (TUnion cs) => mem T cs
  | _ => false
  end.

(** The last converter of the map, in its order, that declares [T]. *)
Definition last_declaring (items : TypeHandlersMap) (T : string) : option Func :=
  fold_left (fun acc kv => if declares (snd kv) T then Some (snd kv) else acc)
            items None.

(** The annotation of [obj] is neither a class nor a union of classes. *)
Definition not_keyable (v : Func) : bool :=
  match assoc "obj" (fn_hints v) with
  | Some (TOther _) => true
  | _ => false
  end.

(** [def use_grid_default(obj: Any, ...) -> bool: return False] and
    [def grid_default(obj: list[list[int]], ...) -> list: return list(obj)],
    a converter whose declared type is a parametrised generic. *)
Definition fn_use_grid_default : Func :=
  recognizer "use_grid_default" "bool" (fun _ => pred false).
Definition fn_grid_default : Func :=
  converter "grid_default" (TOther "list[list[int]]") (TClass "list") list_.

Definition grid_catalog : TypeHandlersMap :=
  [(GFunc fn_use_uuid_default, fn_uuid_default);
   (GFunc fn_use_grid_default, fn_grid_default)].

(** The two pairs of the catalog whose converters both declare [EnumType]
    ([EnumMeta] is the same class). *)
Definition enum_class_catalog : TypeHandlersMap :=
  [(GFunc fn_use_enum_meta_default, fn_enum_meta_default);
   (GFunc fn_use_enum_type_default, fn_enum_type_default)].

(** The classes [builtin_default] declares. *)
Definition builtin_classes : list string :=
  ["int"; "float"; "bool"; "str"; "list"; "dict"; "tuple"].

(** [class Color(enum.IntEnum)] walks through [IntEnum] before [int];
    [class Celsius(int)] reaches [int] first. *)
Definition Celsius : PyClass := class_ "Celsius" "__main__" ["int"] ["Hashable"].
Definition celsius_obj : PyVal :=
  MkObj Celsius (SInt 21) [] [] (Ok "21") (Ok "21").

(** An exception whose [__str__] raises. *)
Definition mute_error : PyVal :=
  MkObj ValueError_class SOther [("__traceback__", None_)] []
        (Raise (ValueError "no str")) (Ok "ValueError()").


(** [class Color(Enum): RED = 1; GREEN = 2]: the class object, whose class
    is [EnumType], and its members. *)
Definition EnumType_class : PyClass := class_ "EnumType" "enum" ["type"] [].
Definition Color : PyClass := class_ "Color" "__main__" ["Enum"] ["Hashable"].
Definition color_member (name : string) (value : Z) : PyVal :=
  MkObj Color SOther [("name", str_obj name); ("value", int_obj value)] []
        (Ok ("Color." +:+ name)) (Ok ("<Color." +:+ name +:+ ">")).
Definition Color_obj : PyVal :=
  MkObj EnumType_class (SClass Color) []
        [("__iter__", Ok (container tuple_class
                            [color_member "RED" 1; color_member "GREEN" 2] "<iterator>"))]
        (Ok "<enum 'Color'>") (Ok "<enum 'Color'>").

(* ================================================================= *)
(** * Properties *)

Example replace_ex : replace "use_" "" "use_set_default" = "set_default"
  /\ replace "use_" "" "use_reuse_x" = "rex"
  /\ strip ("  a b" +:+ nl) = "a b"
  /\ str_of_Z 42 = "42" /\ str_of_Z (-7) = "-7" /\ str_of_Z 0 = "0"
  /\ b64_groups [97; 98]%N = "YWI=" /\ b64_groups [255; 239; 190; 0]%N = "_---AA==".
Proof. repeat split; vm_compute; reflexivity. Qed.

(** ** The dispatch engine *)

Section Engine.

Variable tm : TypeHandlersMap.
Variable st : SdState.

Lemma serialize_object_first_match (items : TypeHandlersMap) (obj : PyVal) (_raise : bool) :
  serialize_object items obj _raise =
  do sel <- first_match items obj;
  match sel with
  | Some v => fn_call v obj
  | None =>
      if _raise then Raise NotImplementedError
      else do s <- unknown_default obj; Ok (OStr s)
  end.
Proof.
  induction items as [|[k v] rest IH]; simpl; [reflexivity|].
  destruct (call k obj) as [r|e]; simpl; [|reflexivity].
  destruct (truthy r); [reflexivity|exact IH].
Qed.

Lemma serialize_resolve (obj : PyVal) (_raise : bool) :
  serialize tm st obj _raise =
  do sel <- resolve tm st obj;
  match sel with
  | Some v => fn_call v obj
  | None =>
      if _raise then Raise NotImplementedError
      else do s <- unknown_default obj; Ok (OStr s)
  end.
Proof.
  unfold serialize, resolve.
  destruct (dispatch (registry st) (type_ obj)) as [[|f]|e]; simpl;
    [apply serialize_object_first_match | reflexivity | reflexivity].
Qed.

Lemma unknown_default_text (obj : PyVal) :
  raises_only_Exception (str obj) ->
  raises_only_Exception (repr obj) ->
  unknown_default obj = Ok (fallback_text obj).
Proof.
  unfold unknown_default, fallback_text, raises_only_Exception.
  destruct (str obj) as [s|e]; [reflexivity|].
  intros ->. destruct (repr obj) as [s'|e']; [reflexivity|].
  intros ->. reflexivity.
Qed.

End Engine.

(** C1, as stated, fails: [serialize(x, _raise=False)] raises on
    [Decimal('sNaN')], whose registered converter calls [float] on it, and on
    an unrecognized object whose [__str__] raises [SystemExit], which
    [except Exception] in [unknown_default] lets through. *)
Lemma serialize_no_raise_counterexample :
  serialize TYPEMAP sd dec_snan false
    = Raise (ValueError "cannot convert signaling NaN to float")
  /\ resolve TYPEMAP sd quit_obj = Ok None
  /\ serialize TYPEMAP sd quit_obj false = Raise SystemExit
  /\ ~ (forall x, is_ok (serialize TYPEMAP sd x false) = true).
Proof.
  split; [vm_compute; reflexivity|].
  split; [vm_compute; reflexivity|].
  split; [vm_compute; reflexivity|].
  intros H. specialize (H dec_snan). vm_compute in H. discriminate H.
Qed.

(** C1 (amended): when the dispatch selects without raising ([resolve]
    returns), the selected converter, if any, does not itself raise on [x],
    and [str(x)] and [repr(x)] raise nothing outside [Exception], then
    [serialize(x, _raise=False)] returns a value; when no recognizer matches
    it is the fallback text: [str(x)], else [repr(x)], else the sentinel
    ['__failed_to_encode__']. *)
Theorem serialize_no_raise_returns (tm : TypeHandlersMap) (st : SdState)
    (x : PyVal) (sel : option Func) :
  resolve tm st x = Ok sel ->
  (forall f, sel = Some f -> is_ok (fn_call f x) = true) ->
  raises_only_Exception (str x) ->
  raises_only_Exception (repr x) ->
  exists y, serialize tm st x false = Ok y
            /\ (sel = None -> y = OStr (fallback_text x)).
Proof.
  intros Hsel Hconv Hstr Hrepr.
  rewrite serialize_resolve, Hsel. simpl.
  destruct sel as [f|].
  - specialize (Hconv f eq_refl).
    destruct (fn_call f x) as [y|e]; [|discriminate Hconv].
    exists y. split; [reflexivity|discriminate].
  - rewrite (unknown_default_text x Hstr Hrepr). simpl.
    exists (OStr (fallback_text x)). split; [reflexivity|intros _; reflexivity].
Qed.

Lemma serialize_no_raise_returns_witness :
  fallback_text mute_obj = "__failed_to_encode__"
  /\ exists y, serialize TYPEMAP sd mute_obj false = Ok y
               /\ (@None Func = None -> y = OStr (fallback_text mute_obj)).
Proof.
  split; [reflexivity|].
  apply (serialize_no_raise_returns TYPEMAP sd mute_obj None).
  - vm_compute; reflexivity.
  - intros f Hf; discriminate Hf.
  - reflexivity.
  - reflexivity.
Defined.

(** C2, as stated, fails: the failure for [None] is a bare
    [NotImplementedError] whose arguments are empty, so it does not name
    [NoneType]. *)
Lemma serialize_raise_names_type_counterexample :
  resolve TYPEMAP sd None_ = Ok None
  /\ serialize TYPEMAP sd None_ true = Raise NotImplementedError
  /\ exn_args NotImplementedError = []
  /\ names_type_of NotImplementedError None_ = false.
Proof. repeat split; vm_compute; reflexivity. Qed.

(** C2 (amended): when the dispatch selects without raising and the selected
    converter, if any, does not itself raise [NotImplementedError], then
    [serialize(x, _raise=True)] fails with [NotImplementedError] if and only
    if no recognizer, registered for the class or in the map, matches [x];
    that failure carries no argument and names no type. *)
Theorem serialize_raise_iff_unmatched (tm : TypeHandlersMap) (st : SdState)
    (x : PyVal) (sel : option Func) :
  resolve tm st x = Ok sel ->
  (forall f, sel = Some f -> fn_call f x <> Raise NotImplementedError) ->
  (serialize tm st x true = Raise NotImplementedError <-> sel = None)
  /\ exn_args NotImplementedError = [].
Proof.
  intros Hsel Hconv. split; [|reflexivity].
  rewrite serialize_resolve, Hsel. simpl.
  destruct sel as [f|].
  - split; [intros H; exfalso; exact (Hconv f eq_refl H) | discriminate].
  - split; reflexivity.
Qed.

Lemma serialize_raise_iff_unmatched_witness :
  (serialize TYPEMAP sd None_ true = Raise NotImplementedError <-> @None Func = None)
  /\ exn_args NotImplementedError = [].
Proof.
  apply (serialize_raise_iff_unmatched TYPEMAP sd None_ None).
  - vm_compute; reflexivity.
  - intros f Hf; discriminate Hf.
Defined.

(** The walk of [_find_impl] stops at the first registered class; when that
    class is a real base there is no ambiguity to report. *)
Lemma find_impl_first_registered (reg : gmap string Impl)
    (pre : list MroEntry) (t : MroEntry) (post : list MroEntry) (impl : Impl) :
  Forall (fun e => reg !! me_class e = None) pre ->
  reg !! me_class t = Some impl ->
  me_real t = true ->
  _find_impl reg (pre ++ t :: post) = Ok impl.
Proof.
  intros Hpre Ht Hreal.
  induction Hpre as [|e pre He _ IH]; simpl.
  - rewrite Ht, Hreal.
    destruct post as [|t' post']; [reflexivity|].
    destruct (in_registry reg (me_class t')), (me_real t'); reflexivity.
  - rewrite He. exact IH.
Qed.

(** C3: when the class of [x] is [T] or a subclass of [T] ([T] is a real
    base in the walk of the class), no class before [T] in the walk is
    registered, and [T] is registered with converter [C], then
    [serialize(x)] is exactly [C(x)], whatever the map holds. *)
Theorem serialize_registered_type (tm : TypeHandlersMap) (st : SdState)
    (x : PyVal) (T : string) (C : Func)
    (pre : list MroEntry) (t : MroEntry) (post : list MroEntry) (_raise : bool) :
  cls_mro (type_ x) = pre ++ t :: post ->
  me_class t = T ->
  me_real t = true ->
  Forall (fun e => registry st !! me_class e = None) pre ->
  registry st !! T = Some (Registered C) ->
  serialize tm st x _raise = fn_call C x.
Proof.
  intros Hmro HT Hreal Hpre Hreg. subst T.
  unfold serialize, dispatch. rewrite Hmro.
  rewrite (find_impl_first_registered _ pre t post (Registered C) Hpre Hreg Hreal).
  reflexivity.
Qed.

Lemma serialize_registered_type_witness :
  serialize TYPEMAP sd tags_obj true = fn_call fn_set_default tags_obj
  /\ fn_call fn_set_default tags_obj = Ok (OList [ORef (int_obj 7)]).
Proof.
  split; [|reflexivity].
  apply (serialize_registered_type TYPEMAP sd tags_obj "set" fn_set_default
           [real_entry "Tags"] (real_entry "set") [real_entry "object"] true).
  - reflexivity.
  - reflexivity.
  - reflexivity.
  - constructor; [vm_compute; reflexivity | constructor].
  - vm_compute; reflexivity.
Defined.

(** The recording loop returns what the loop returns. *)
Lemma serialize_object_calls_result (items : TypeHandlersMap) (x : PyVal) (_raise : bool) :
  snd (serialize_object_calls items x _raise) = serialize_object items x _raise.
Proof.
  induction items as [|[k v] rest IH]; simpl; [reflexivity|].
  destruct (call k x) as [r|e]; simpl; [|reflexivity].
  destruct (truthy r); [reflexivity|].
  destruct (serialize_object_calls rest x _raise) as [calls result]. exact IH.
Qed.

(** The loop of [serialize] stops at the first recognizer that returns a
    true value: it has called the recognizers up to that one, then its
    converter, and nothing else. *)
Lemma serialize_object_first (pre : TypeHandlersMap) (k : GObj) (v : Func)
    (post : TypeHandlersMap) (x : PyVal) (rk : Out) (_raise : bool) :
  Forall (fun kv => exists r, call (fst kv) x = Ok r /\ truthy r = false) pre ->
  call k x = Ok rk ->
  truthy rk = true ->
  serialize_object_calls (pre ++ (k, v) :: post) x _raise
  = (map (fun kv => gobj_id (fst kv)) pre ++ [gobj_id k; fn_name v], fn_call v x).
Proof.
  intros Hpre Hk Hrk.
  induction Hpre as [|[k' v'] pre (r & Hr & Hfalse) _ IH]; simpl.
  - rewrite Hk, Hrk. reflexivity.
  - simpl in Hr. rewrite Hr, Hfalse, IH. reflexivity.
Qed.

(** C4: for a value [x] with no registration for its class (the dispatch
    reaches the body of [serialize]), when [(k, v)] is the first entry of the
    map, in its order, whose recognizer returns a true value on [x], then
    [serialize(x)] is [v(x)], and the loop has called the recognizers before
    [k], then [k], then [v]: the entries after it, [post], whether or not
    they match, are not invoked. *)
Theorem serialize_first_match_wins (st : SdState)
    (pre : TypeHandlersMap) (k : GObj) (v : Func) (post : TypeHandlersMap)
    (x : PyVal) (rk : Out) (_raise : bool) :
  dispatch (registry st) (type_ x) = Ok Base ->
  Forall (fun kv => exists r, call (fst kv) x = Ok r /\ truthy r = false) pre ->
  call k x = Ok rk ->
  truthy rk = true ->
  serialize (pre ++ (k, v) :: post) st x _raise = fn_call v x
  /\ fst (serialize_object_calls (pre ++ (k, v) :: post) x _raise)
     = map (fun kv => gobj_id (fst kv)) pre ++ [gobj_id k; fn_name v].
Proof.
  intros Hbase Hpre Hk Hrk.
  pose proof (serialize_object_first pre k v post x rk _raise Hpre Hk Hrk) as Hrun.
  split.
  - unfold serialize. rewrite Hbase. cbv beta iota delta [bind].
    rewrite <- serialize_object_calls_result, Hrun. reflexivity.
  - rewrite Hrun. reflexivity.
Qed.

Lemma serialize_first_match_wins_witness :
  (do later <- first_match (skipn 5 TYPEMAP) blob_obj;
   Ok (option_map fn_name later)) = Ok (Some "dataclass_default")
  /\ serialize (firstn 4 TYPEMAP ++ (GFunc fn_use_bytes_default, fn_bytes_default)
                 :: skipn 5 TYPEMAP) sd blob_obj true
     = fn_call fn_bytes_default blob_obj
  /\ fst (serialize_object_calls
            (firstn 4 TYPEMAP ++ (GFunc fn_use_bytes_default, fn_bytes_default)
             :: skipn 5 TYPEMAP) blob_obj true)
     = map (fun kv => gobj_id (fst kv)) (firstn 4 TYPEMAP)
       ++ ["use_bytes_default"; "bytes_default"].
Proof.
  split; [vm_compute; reflexivity|].
  apply (serialize_first_match_wins sd (firstn 4 TYPEMAP)
           (GFunc fn_use_bytes_default) fn_bytes_default (skipn 5 TYPEMAP)
           blob_obj (OBool true) true).
  - vm_compute; reflexivity.
  - change (firstn 4 TYPEMAP) with
      [(GFunc fn_use_type_default, fn_type_default);
       (GFunc fn_use_builtin_default, fn_builtin_default);
       (GFunc fn_use_namedtuple_default, fn_namedtuple_default);
       (GFunc fn_use_set_default, fn_set_default)].
    repeat (constructor; [exists (OBool false); split; vm_compute; reflexivity|]).
    constructor.
  - vm_compute; reflexivity.
  - vm_compute; reflexivity.
Defined.

(** The bytes of the example, encoded. *)
Lemma blob_encoded : fn_call fn_bytes_default blob_obj = Ok (OStr "YWI=").
Proof. vm_compute; reflexivity. Qed.

Lemma TYPEMAP_split_set :
  TYPEMAP = firstn 3 TYPEMAP ++ (GFunc fn_use_set_default, fn_set_default)
            :: skipn 4 TYPEMAP.
Proof. vm_compute; reflexivity. Qed.

(** The catalog around its fifth entry. *)
Lemma TYPEMAP_split :
  TYPEMAP = firstn 4 TYPEMAP ++ (GFunc fn_use_bytes_default, fn_bytes_default)
            :: skipn 5 TYPEMAP.
Proof. vm_compute; reflexivity. Qed.

(** ** Validation and registry construction *)

Section Validation.

Variable hs : list GObj.
Hypothesis hs_ids : ids_faithful hs.
Hypothesis hs_functions : Forall is_function hs.

Lemma cache_sound_insert (g : GObj) (st : SdState) (c : gmap string bool) :
  In g hs ->
  has_obj g = true ->
  (forall i, i <> gobj_id g -> c !! i = _validation_cache st !! i) ->
  cache_sound hs st ->
  cache_sound hs (MkSd (registry st) (<[ gobj_id g := true ]> c) (_excepted_handlers st)).
Proof.
  intros Hg Hobj Hc Hsound g' Hg' Hlook. simpl in Hlook.
  destruct (decide (gobj_id g' = gobj_id g)) as [Heq|Hne].
  - rewrite (hs_ids g' g Hg' Hg Heq). exact Hobj.
  - rewrite lookup_insert_ne in Hlook; [|intros E; exact (Hne (eq_sym E))].
    rewrite Hc in Hlook by exact Hne.
    exact (Hsound g' Hg' Hlook).
Qed.

(** One guarded validation: a handler that declares [obj] passes and the
    cache stays sound; one that does not raises the error that names it.
    Neither touches the registry. *)
Lemma validate_unless_cached_spec (g : GObj) (st : SdState) :
  In g hs ->
  cache_sound hs st ->
  exists st',
    registry st' = registry st
    /\ _excepted_handlers st' = _excepted_handlers st
    /\ ((has_obj g = true /\ validate_unless_cached g st = (st', Ok tt)
         /\ cache_sound hs st')
        \/ (has_obj g = false
            /\ validate_unless_cached g st = (st', Raise (MissingAnnotationError g)))).
Proof.
  intros Hg Hsound.
  assert (Hfun : is_function g).
  { rewrite List.Forall_forall in hs_functions. exact (hs_functions g Hg). }
  destruct Hfun as [f ->].
  unfold validate_unless_cached, cache_read.
  destruct (_validation_cache st !! gobj_id (GFunc f)) as [[|]|] eqn:Hlook.
  - exists st. repeat split; try reflexivity.
    left. repeat split; [exact (Hsound _ Hg Hlook) | exact Hsound].
  - unfold _validate_type_handler, has_obj. simpl get_type_hints. cbv iota beta.
    destruct (assoc "obj" (fn_hints f)) as [ty|] eqn:Hobj.
    + eexists. split; [|split; [|left; split; [reflexivity|split; [reflexivity|]]]];
        [reflexivity | reflexivity |].
      apply cache_sound_insert; [exact Hg | simpl; rewrite Hobj; reflexivity
                                | reflexivity | exact Hsound].
    + exists st. repeat split; try reflexivity. right. split; reflexivity.
  - unfold _validate_type_handler, has_obj. simpl get_type_hints. cbv iota beta.
    destruct (assoc "obj" (fn_hints f)) as [ty|] eqn:Hobj.
    + eexists. split; [|split; [|left; split; [reflexivity|split; [reflexivity|]]]];
        [reflexivity | reflexivity |].
      simpl registry. simpl _excepted_handlers. simpl _validation_cache.
      apply cache_sound_insert; [exact Hg | simpl; rewrite Hobj; reflexivity
                                | | exact Hsound].
      intros i Hi. apply lookup_insert_ne. intros E. exact (Hi (eq_sym E)).
    + eexists. split; [|split; [|right; split; reflexivity]]; reflexivity.
Qed.

(** [_validate_typemap] either validates every handler, or stops at the
    first one, in its order, that does not declare [obj]. *)
Lemma validate_typemap_spec (tm : TypeHandlersMap) :
  forall st : SdState,
  incl (handlers tm) hs ->
  cache_sound hs st ->
  exists st',
    registry st' = registry st
    /\ _excepted_handlers st' = _excepted_handlers st
    /\ ((Forall (fun g => has_obj g = true) (handlers tm)
         /\ _validate_typemap tm st = (st', Ok tt))
        \/ (exists bad, In bad (handlers tm) /\ has_obj bad = false
            /\ _validate_typemap tm st = (st', Raise (MissingAnnotationError bad)))).
Proof.
  induction tm as [|[k v] rest IH]; intros st Hincl Hsound.
  - exists st. repeat split; try reflexivity. left. split; [constructor|reflexivity].
  - simpl handlers in *.
    assert (Hv : In (GFunc v) hs) by (apply Hincl; left; reflexivity).
    assert (Hk : In k hs) by (apply Hincl; right; left; reflexivity).
    assert (Hrest : incl (handlers rest) hs).
    { intros g Hg. apply Hincl. right. right. exact Hg. }
    destruct (validate_unless_cached_spec (GFunc v) st Hv Hsound)
      as (st1 & Hr1 & He1 & [(Ho1 & Hrun1 & Hs1)|(Ho1 & Hrun1)]).
    + destruct (validate_unless_cached_spec k st1 Hk Hs1)
        as (st2 & Hr2 & He2 & [(Ho2 & Hrun2 & Hs2)|(Ho2 & Hrun2)]).
      * destruct (IH st2 Hrest Hs2)
          as (st3 & Hr3 & He3 & [(Hall & Hrun3)|(bad & Hbad & Hobad & Hrun3)]).
        -- exists st3.
           split; [congruence|]. split; [congruence|]. left.
           split; [constructor; [exact Ho1|constructor; [exact Ho2|exact Hall]]|].
           simpl. rewrite Hrun1, Hrun2. exact Hrun3.
        -- exists st3.
           split; [congruence|]. split; [congruence|]. right.
           exists bad. split; [right; right; exact Hbad|]. split; [exact Hobad|].
           simpl. rewrite Hrun1, Hrun2. exact Hrun3.
      * exists st2.
        split; [congruence|]. split; [congruence|]. right.
        exists k. split; [right; left; reflexivity|]. split; [exact Ho2|].
        simpl. rewrite Hrun1, Hrun2. reflexivity.
    + exists st1.
      split; [congruence|]. split; [congruence|]. right.
      exists (GFunc v). split; [left; reflexivity|]. split; [exact Ho1|].
      simpl. rewrite Hrun1. reflexivity.
Qed.

End Validation.

Lemma cache_sound_initial (hs : list GObj) : cache_sound hs initial_state.
Proof. intros g _ H. simpl in H. rewrite lookup_empty in H. discriminate H. Qed.

Lemma missing_annotation_message (f : Func) :
  exn_args (MissingAnnotationError (GFunc f))
  = ["The function '" +:+ fn_name f +:+ "' must have an 'obj' parameter."].
Proof. reflexivity. Qed.

(** C5: starting from the module's initial state, when some recognizer or
    converter of the catalog declares no type for its parameter [obj], the
    construction of the registry aborts with [MissingAnnotationError] for a
    function of the catalog that lacks the declaration, its message naming
    that function; the validator has run before any registration, so the
    registry and the excepted handlers are as they were. *)
Theorem register_aborts_on_missing_annotation (tm : TypeHandlersMap) (g : GObj) :
  ids_faithful (handlers tm) ->
  Forall is_function (handlers tm) ->
  In g (handlers tm) ->
  has_obj g = false ->
  exists (st' : SdState) (bad : Func),
    _register_singledispatch tm initial_state
      = (st', Raise (MissingAnnotationError (GFunc bad)))
    /\ In (GFunc bad) (handlers tm)
    /\ has_obj (GFunc bad) = false
    /\ exn_args (MissingAnnotationError (GFunc bad))
       = ["The function '" +:+ fn_name bad +:+ "' must have an 'obj' parameter."]
    /\ registry st' = registry initial_state
    /\ _excepted_handlers st' = [].
Proof.
  intros Hids Hfun Hg Hobj.
  destruct (validate_typemap_spec (handlers tm) Hids Hfun tm initial_state
              (fun x H => H) (cache_sound_initial _))
    as (st' & Hreg & Hexc & [(Hall & _)|(bad & Hbad & Hobad & Hrun)]).
  - rewrite List.Forall_forall in Hall. rewrite (Hall g Hg) in Hobj. discriminate Hobj.
  - assert (Hf : is_function bad).
    { rewrite List.Forall_forall in Hfun. exact (Hfun bad Hbad). }
    destruct Hf as [f ->].
    exists st', f. unfold _register_singledispatch. rewrite Hrun.
    repeat split; try assumption. 
Qed.

Lemma register_aborts_on_missing_annotation_witness :
  has_obj (GFunc fn_untyped_default) = false
  /\ exists (st' : SdState) (bad : Func),
    _register_singledispatch untyped_catalog initial_state
      = (st', Raise (MissingAnnotationError (GFunc bad)))
    /\ In (GFunc bad) (handlers untyped_catalog)
    /\ has_obj (GFunc bad) = false
    /\ exn_args (MissingAnnotationError (GFunc bad))
       = ["The function '" +:+ fn_name bad +:+ "' must have an 'obj' parameter."]
    /\ registry st' = registry initial_state
    /\ _excepted_handlers st' = [].
Proof.
  split; [reflexivity|].
  apply (register_aborts_on_missing_annotation untyped_catalog (GFunc fn_untyped_default)).
  - intros g g' Hg Hg' Hid. simpl in Hg, Hg'.
    destruct Hg as [<-|[<-|[<-|[<-|[]]]]];
      destruct Hg' as [<-|[<-|[<-|[<-|[]]]]];
      first [reflexivity | vm_compute in Hid; discriminate Hid].
  - repeat (constructor; [eexists; reflexivity|]). constructor.
  - simpl. right. right. left. reflexivity.
  - reflexivity.
Defined.

(** The catalog of the module validates and registers without error, and
    every converter is keyed by a class: no handler is excepted. *)
Lemma catalog_registers :
  snd (_register_singledispatch TYPEMAP initial_state) = Ok tt
  /\ _excepted_handlers sd = []
  /\ size (registry sd) = 50%nat.
Proof. repeat split; vm_compute; reflexivity. Qed.

(** ** The converters of the catalog *)

(** The registry after import: each class of a converter's annotation maps
    to that converter, each member of a union too; [EnumMeta] and [EnumType]
    are one class, and the later registration replaced the earlier. *)
Lemma direct_table_of_catalog :
  impl_name <$> registry sd !! "object" = Some "serialize"
  /\ impl_name <$> registry sd !! "set" = Some "set_default"
  /\ impl_name <$> registry sd !! "bool" = Some "builtin_default"
  /\ impl_name <$> registry sd !! "tuple" = Some "builtin_default"
  /\ impl_name <$> registry sd !! "NamedTupleProtocol" = Some "namedtuple_default"
  /\ impl_name <$> registry sd !! "EnumType" = Some "enum_type_default"
  /\ impl_name <$> registry sd !! "bytes" = Some "bytes_default"
  /\ registry sd !! "frozenset" = None
  /\ registry sd !! "bytearray" = None.
Proof. repeat split; vm_compute; reflexivity. Qed.

(** A named tuple goes to [namedtuple_default], not to the converter of
    [tuple]; a class that is a virtual subclass of two unrelated registered
    protocols is refused by the dispatch. *)
Lemma dispatch_virtual_bases :
  serialize TYPEMAP sd point_obj true = Ok (ORef point_dict)
  /\ serialize TYPEMAP sd both_obj false = Raise (RuntimeError "Ambiguous dispatch").
Proof. split; vm_compute; reflexivity. Qed.

Lemma dispatch_BaseException :
  dispatch (registry sd) ArcLogError_class = Ok (Registered fn_exception_default)
  /\ dispatch (registry sd) ValueError_class = Ok (Registered fn_exception_default).
Proof. split; vm_compute; reflexivity. Qed.

(** C6, at the failing inputs: an exception that was never raised still has
    the attribute [__traceback__] (it is [None]), so [exception_default]
    takes its first branch and returns what [format_exception] prints: the
    class with its module for [ArcLogError('boom')], the bare class for
    [ValueError()].  Neither is ['<ClassName>: <message>'], the text of the
    second branch, which no exception reaches. *)
Lemma exception_without_traceback_text :
  hasattr arclog_error_boom "__traceback__" = true
  /\ serialize TYPEMAP sd arclog_error_boom true
     = Ok (OStr "arclog.exceptions.ArcLogError: boom")
  /\ class_colon_message arclog_error_boom = Ok (OStr "ArcLogError: boom")
  /\ hasattr value_error_empty "__traceback__" = true
  /\ serialize TYPEMAP sd value_error_empty true = Ok (OStr "ValueError")
  /\ class_colon_message value_error_empty = Ok (OStr "ValueError: ").
Proof. repeat split; vm_compute; reflexivity. Qed.

(** With a traceback attached the text is the formatted traceback, which
    ends with the class and the message. *)
Lemma exception_with_traceback_text :
  serialize TYPEMAP sd value_error_raised true
  = Ok (OStr ("Traceback (most recent call last):" +:+ nl
              +:+ "  File " +:+ dq +:+ "app.py" +:+ dq +:+ ", line 3, in <module>" +:+ nl
              +:+ "    raise ValueError('boom')" +:+ nl
              +:+ "ValueError: boom")).
Proof. vm_compute; reflexivity. Qed.

Lemma dispatch_Decimal :
  dispatch (registry sd) Decimal_class = Ok (Registered fn_decimal_default).
Proof. vm_compute; reflexivity. Qed.

(** C7: for a [Decimal] whose exponent is an integer [e], [serialize]
    returns the integer [int(d)] when [e >= 0], and the float [float(d)]
    when [e < 0]. *)
Theorem decimal_integer_or_float (x : PyVal) (sign : bool) (ds : list Z) (e : Z)
    (_raise : bool) :
  type_ x = Decimal_class ->
  ob_state x = SDecimal sign ds (EInt e) ->
  (0 <= e ->
     serialize TYPEMAP sd x _raise = Ok (OInt (signed sign (digits_value ds * 10 ^ e))))
  /\ (e < 0 ->
     serialize TYPEMAP sd x _raise = Ok (OFloat (FOfDecimal sign ds e))).
Proof.
  intros Hty Hst.
  assert (Hrun : serialize TYPEMAP sd x _raise = decimal_default x).
  { unfold serialize. rewrite Hty, dispatch_Decimal. reflexivity. }
  rewrite Hrun. unfold decimal_default, as_tuple_exponent, int_, float_.
  rewrite Hst. simpl.
  split; intros He.
  - destruct (0 <=? e) eqn:Hle; [reflexivity|].
    apply Z.leb_gt in Hle. lia.
  - destruct (0 <=? e) eqn:Hle; [|reflexivity].
    apply Z.leb_le in Hle. lia.
Qed.

Lemma decimal_integer_or_float_witness :
  serialize TYPEMAP sd dec_1e2 true = Ok (OInt (signed false (digits_value [1] * 10 ^ 2)))
  /\ serialize TYPEMAP sd dec_neg_2_50 true = Ok (OFloat (FOfDecimal true [2; 5; 0] (-2))).
Proof.
  split.
  - apply (proj1 (decimal_integer_or_float dec_1e2 false [1] 2 true eq_refl eq_refl)). lia.
  - apply (proj2 (decimal_integer_or_float dec_neg_2_50 true [2; 5; 0] (-2) true
                    eq_refl eq_refl)). lia.
Defined.

Lemma decimal_examples :
  serialize TYPEMAP sd dec_1e2 true = Ok (OInt 100)
  /\ serialize TYPEMAP sd dec_neg_2_50 true = Ok (OFloat (FOfDecimal true [2; 5; 0] (-2))).
Proof. split; vm_compute; reflexivity. Qed.

Lemma dispatch_containers :
  dispatch (registry sd) set_class = Ok (Registered fn_set_default)
  /\ dispatch (registry sd) deque_class = Ok (Registered fn_deque_default)
  /\ dispatch (registry sd) frozenset_class = Ok Base.
Proof. repeat split; vm_compute; reflexivity. Qed.

(** A [frozenset] has no registration of its own; the loop over the map
    reaches [use_set_default], the fourth recognizer, and calls [set_default]. *)
Lemma serialize_frozenset (x : PyVal) (_raise : bool) :
  type_ x = frozenset_class ->
  serialize TYPEMAP sd x _raise = set_default x.
Proof.
  intros Hty.
  unfold serialize. rewrite Hty, (proj2 (proj2 dispatch_containers)).
  cbv beta iota delta [bind].
  rewrite TYPEMAP_split_set, <- serialize_object_calls_result.
  rewrite (serialize_object_first (firstn 3 TYPEMAP) (GFunc fn_use_set_default)
             fn_set_default (skipn 4 TYPEMAP) x (OBool true) _raise);
    [reflexivity| | |].
  - change (firstn 3 TYPEMAP) with
      [(GFunc fn_use_type_default, fn_type_default);
       (GFunc fn_use_builtin_default, fn_builtin_default);
       (GFunc fn_use_namedtuple_default, fn_namedtuple_default)].
    repeat (constructor;
            [exists (OBool false); split; [|reflexivity];
             simpl; unfold use_type_default, use_builtin_default,
               use_namedtuple_default, isinstance_any, isinstance;
             rewrite Hty; reflexivity|]).
    constructor.
  - simpl. unfold use_set_default, isinstance_any, isinstance. rewrite Hty. reflexivity.
  - reflexivity.
Qed.

(** C8: for a set, a frozenset or a deque whose iteration yields [items],
    [serialize] returns a list of exactly those objects, in that order and
    untouched (each element is the source's own object, not a reduction of
    it), so with the same count. *)
Theorem container_elements_preserved (x : PyVal) (items : list PyVal) (_raise : bool) :
  type_ x = set_class \/ type_ x = frozenset_class \/ type_ x = deque_class ->
  ob_state x = SItems items ->
  serialize TYPEMAP sd x _raise = Ok (OList (map ORef items))
  /\ List.length (map ORef items) = List.length items.
Proof.
  intros Hty Hst. split; [|apply length_map].
  assert (Hlist : list_ x = Ok (OList (map ORef items))).
  { unfold list_, iterate. rewrite Hst. reflexivity. }
  destruct Hty as [Hty|[Hty|Hty]].
  - unfold serialize. rewrite Hty, (proj1 dispatch_containers). exact Hlist.
  - rewrite (serialize_frozenset x _raise Hty). exact Hlist.
  - unfold serialize. rewrite Hty, (proj1 (proj2 dispatch_containers)). exact Hlist.
Qed.

Lemma container_elements_preserved_witness :
  serialize TYPEMAP sd set_of_three true
    = Ok (OList (map ORef [int_obj 1; int_obj 2; int_obj 3]))
  /\ List.length (map ORef [int_obj 1; int_obj 2; int_obj 3]) = 3%nat.
Proof.
  apply (container_elements_preserved set_of_three [int_obj 1; int_obj 2; int_obj 3] true).
  - left. reflexivity.
  - reflexivity.
Defined.

(** C9: no registration and no recognizer of the catalog matches [None]:
    the walk of [NoneType] finds only [object], every recognizer returns
    [False] (the builtin one tests [int], [float], [bool], [str], [list],
    [dict] and [tuple]), so [serialize(None)] fails with
    [NotImplementedError], and with [_raise=False] returns the text ['None']. *)
Theorem none_is_unrecognized :
  registry sd !! "NoneType" = None
  /\ dispatch (registry sd) (type_ None_) = Ok Base
  /\ (forall k v, In (k, v) TYPEMAP -> call k None_ = Ok (OBool false))
  /\ (forall x, use_builtin_default x
        = pred (isinstance_any x ["int"; "float"; "bool"; "str"; "list"; "dict"; "tuple"]))
  /\ serialize TYPEMAP sd None_ true = Raise NotImplementedError
  /\ serialize TYPEMAP sd None_ false = Ok (OStr "None").
Proof.
  split; [vm_compute; reflexivity|].
  split; [vm_compute; reflexivity|].
  split.
  - assert (H : forallb (fun kv : GObj * Func =>
                           match call (fst kv) None_ with
                           | Ok (OBool false) => true
                           | _ => false
                           end) TYPEMAP = true) by (vm_compute; reflexivity).
    intros k v Hin.
    rewrite List.forallb_forall in H. specialize (H (k, v) Hin). simpl in H.
    destruct (call k None_) as [[| [|] | | | | | |]|]; try discriminate H. reflexivity.
  - split; [intros x; reflexivity|].
    split; vm_compute; reflexivity.
Qed.

(** ** The type-handlers map *)

Lemma setitem_In (k : GObj) (v : Func) (m : TypeHandlersMap) (k' : GObj) (v' : Func) :
  In (k', v') (setitem k v m) ->
  In (k', v') m \/ (gobj_id k' = gobj_id k /\ v' = v).
Proof.
  induction m as [|[k1 v1] m IH]; simpl.
  - intros [E|[]]. inversion E. right. split; reflexivity.
  - destruct (String.eqb (gobj_id k) (gobj_id k1)) eqn:Eid.
    + intros [H|H].
      * inversion H; subst. right.
        apply String.eqb_eq in Eid. split; [symmetry; exact Eid|reflexivity].
      * left. right. exact H.
    + intros [H|H]; [left; left; exact H|].
      destruct (IH H) as [Hin|Hnew]; [left; right; exact Hin|right; exact Hnew].
Qed.

Lemma get_typemap_loop_comes_from (globals : list (string * GObj)) :
  forall (items : list (string * GObj)) (mapping : TypeHandlersMap),
  incl items globals ->
  (forall k v, In (k, v) mapping -> comes_from globals k v) ->
  forall k v, In (k, v) (_get_typemap_loop globals items mapping) ->
              comes_from globals k v.
Proof.
  induction items as [|[name func] rest IH]; intros mapping Hincl Hmap k v Hin.
  - exact (Hmap k v Hin).
  - simpl in Hin.
    refine (IH _ _ _ k v Hin).
    + intros x Hx. apply Hincl. right. exact Hx.
    + intros k1 v1 H1.
      destruct (startswith "use_" name) eqn:Hpre; [|exact (Hmap k1 v1 H1)].
      destruct (assoc (replace "use_" "" name) globals) as [enc|] eqn:Henc;
        [|exact (Hmap k1 v1 H1)].
      destruct (gobj_truth enc) eqn:Htruth; [|exact (Hmap k1 v1 H1)].
      destruct (callable enc) as [f|] eqn:Hcall; [|exact (Hmap k1 v1 H1)].
      destruct (setitem_In func f mapping k1 v1 H1) as [Hold|[Hid ->]].
      * exact (Hmap k1 v1 Hold).
      * exists name, func, enc.
        split; [apply Hincl; left; reflexivity|].
        split; [symmetry; exact Hid|].
        repeat split; assumption.
Qed.

(** C10: in the map of the module every recognizer is named [use_] followed
    by the name of the converter it is paired with, and no recognizer occurs
    twice; and whatever the module's globals are, every entry of the map
    comes from a [use_] name whose remainder is bound to a callable, so a
    recognizer without such a converter is not in the map. *)
Theorem typemap_naming_convention :
  Forall (fun kv : GObj * Func => gobj_id (fst kv) = "use_" +:+ fn_name (snd kv)) TYPEMAP
  /\ NoDup (map (fun kv : GObj * Func => gobj_id (fst kv)) TYPEMAP)
  /\ (forall globals k v, In (k, v) (_get_typemap globals) -> comes_from globals k v)
  /\ map (fun kv : GObj * Func => (gobj_id (fst kv), fn_name (snd kv)))
         (_get_typemap orphan_globals)
     = [("use_uuid_default", "uuid_default")].
Proof.
  split; [|split; [|split]].
  - apply (bool_decide_unpack _). vm_compute. exact I.
  - apply (bool_decide_unpack _). vm_compute. exact I.
  - intros globals k v Hin.
    refine (get_typemap_loop_comes_from globals globals [] _ _ k v Hin).
    + intros x Hx. exact Hx.
    + intros k1 v1 [].
  - vm_compute. reflexivity.
Qed.

(** * Further properties of the engine *)

(** ** The fallback converter and the [_raise] flag *)

(** X1: [unknown_default] lets through only what [except Exception] does
    not catch: when it raises, the exception is outside [Exception] and is
    the one [str(obj)] or [repr(obj)] raised. *)
Theorem unknown_default_raises_only_outside_Exception (obj : PyVal) (e : Exn) :
  unknown_default obj = Raise e ->
  caught_by "Exception" e = false /\ (str obj = Raise e \/ repr obj = Raise e).
Proof.
  unfold unknown_default.
  destruct (str obj) as [s|e1]; [discriminate|].
  destruct (caught_by "Exception" e1) eqn:H1.
  - destruct (repr obj) as [s|e2]; [discriminate|].
    destruct (caught_by "Exception" e2) eqn:H2; [discriminate|].
    intros H. inversion H; subst. split; [exact H2|right; reflexivity].
  - intros H. inversion H; subst. split; [exact H1|left; reflexivity].
Qed.

Lemma unknown_default_raises_only_outside_Exception_witness :
  caught_by "Exception" SystemExit = false
  /\ (str quit_obj = Raise SystemExit \/ repr quit_obj = Raise SystemExit).
Proof.
  apply (unknown_default_raises_only_outside_Exception quit_obj SystemExit).
  reflexivity.
Defined.

(** X2: the [_raise] flag matters only for a value nothing matches: as soon
    as the selection does not end with no converter, [serialize] does the
    same with [_raise=True] and [_raise=False], failures included. *)
Theorem serialize_raise_flag_only_for_unmatched (tm : TypeHandlersMap) (st : SdState)
    (x : PyVal) :
  resolve tm st x <> Ok None ->
  serialize tm st x true = serialize tm st x false.
Proof.
  intros Hsel. rewrite !serialize_resolve.
  destruct (resolve tm st x) as [[f|]|e]; simpl;
    [reflexivity | exfalso; apply Hsel; reflexivity | reflexivity].
Qed.

Lemma serialize_raise_flag_only_for_unmatched_witness :
  serialize TYPEMAP sd set_of_three true = serialize TYPEMAP sd set_of_three false.
Proof.
  apply (serialize_raise_flag_only_for_unmatched TYPEMAP sd set_of_three).
  vm_compute. intros H. discriminate H.
Defined.

(** ** The validation cache *)

Lemma validate_unless_cached_marks (g : GObj) (st st' : SdState) :
  validate_unless_cached g st = (st', Ok tt) ->
  _validation_cache st' !! gobj_id g = Some true
  /\ (forall i, _validation_cache st !! i = Some true ->
                _validation_cache st' !! i = Some true)
  /\ registry st' = registry st
  /\ _excepted_handlers st' = _excepted_handlers st.
Proof.
  unfold validate_unless_cached, cache_read, _validate_type_handler.
  destruct (_validation_cache st !! gobj_id g) as [[|]|] eqn:Hlook.
  - intros H. inversion H; subst. repeat split; [exact Hlook|intros i Hi; exact Hi].
  - destruct (get_type_hints g) as [hints|e]; [|discriminate].
    destruct (assoc "obj" hints); [|discriminate].
    intros H. inversion H; subst. simpl.
    repeat split; [apply lookup_insert_eq|].
    intros i Hi. destruct (decide (gobj_id g = i)) as [<-|Hne].
    + apply lookup_insert_eq.
    + rewrite lookup_insert_ne by exact Hne. exact Hi.
  - destruct (get_type_hints g) as [hints|e]; [|discriminate].
    destruct (assoc "obj" hints); [|discriminate].
    intros H. inversion H; subst. simpl.
    repeat split; [apply lookup_insert_eq|].
    intros i Hi. destruct (decide (gobj_id g = i)) as [<-|Hne].
    + apply lookup_insert_eq.
    + rewrite !lookup_insert_ne by exact Hne. exact Hi.
Qed.

Lemma validate_typemap_effect (tm : TypeHandlersMap) :
  forall st st' : SdState,
  _validate_typemap tm st = (st', Ok tt) ->
  (forall g, In g (handlers tm) -> _validation_cache st' !! gobj_id g = Some true)
  /\ (forall i, _validation_cache st !! i = Some true ->
                _validation_cache st' !! i = Some true)
  /\ registry st' = registry st
  /\ _excepted_handlers st' = _excepted_handlers st.
Proof.
  induction tm as [|[k v] rest IH]; intros st st' Hrun.
  - simpl in Hrun. inversion Hrun; subst.
    repeat split; [intros g []|intros i Hi; exact Hi].
  - simpl in Hrun.
    destruct (validate_unless_cached (GFunc v) st) as [st1 [[]|e1]] eqn:Hv;
      [|discriminate].
    destruct (validate_unless_cached k st1) as [st2 [[]|e2]] eqn:Hk;
      [|discriminate].
    destruct (validate_unless_cached_marks _ _ _ Hv) as (Mv & Pv & Rv & Ev).
    destruct (validate_unless_cached_marks _ _ _ Hk) as (Mk & Pk & Rk & Ek).
    destruct (IH st2 st' Hrun) as (Mr & Pr & Rr & Er).
    split; [|split; [|split; congruence]].
    + simpl. intros g [<-|[<-|Hg]].
      * apply Pr, Pk, Mv.
      * apply Pr, Mk.
      * exact (Mr g Hg).
    + intros i Hi. apply Pr, Pk, Pv, Hi.
Qed.

(** X3: when [_validate_typemap] returns, every recognizer and converter of
    the map is marked [True] in [_validation_cache], whatever the cache held
    before, and neither the registry nor the excepted handlers have changed. *)
Theorem validate_typemap_marks_all (tm : TypeHandlersMap) (st st' : SdState) :
  _validate_typemap tm st = (st', Ok tt) ->
  (forall g, In g (handlers tm) -> _validation_cache st' !! gobj_id g = Some true)
  /\ registry st' = registry st
  /\ _excepted_handlers st' = _excepted_handlers st.
Proof.
  intros Hrun.
  destruct (validate_typemap_effect tm st st' Hrun) as (Hmark & _ & Hreg & Hexc).
  repeat split; assumption.
Qed.

Lemma validate_typemap_marks_all_witness :
  _validation_cache (fst (_validate_typemap (firstn 2 TYPEMAP) initial_state))
    !! "use_builtin_default" = Some true.
Proof.
  refine (proj1 (validate_typemap_marks_all (firstn 2 TYPEMAP) initial_state
                   (fst (_validate_typemap (firstn 2 TYPEMAP) initial_state)) _)
                (GFunc fn_use_builtin_default) _).
  - vm_compute. reflexivity.
  - vm_compute. right. right. right. left. reflexivity.
Defined.

(** ** Building the registry *)

Lemma insert_all_lookup (x : Impl) (cs : list string) :
  forall (reg : gmap string Impl) (T : string),
  fold_left (fun r c => <[ c := x ]> r) cs reg !! T
  = if mem T cs then Some x else reg !! T.
Proof.
  induction cs as [|c cs IH]; intros reg T; simpl; [reflexivity|].
  rewrite IH. unfold mem in *.
  destruct (existsb (String.eqb T) cs); simpl.
  - rewrite orb_true_r. reflexivity.
  - rewrite orb_false_r. destruct (String.eqb_spec T c) as [->|Hne].
    + apply lookup_insert_eq.
    + apply lookup_insert_ne. intros E. exact (Hne (eq_sym E)).
Qed.

(** One registration: the declared classes now map to [v], the others are
    as before. *)
Lemma register_lookup (typ : TypeExpr) (v : Func) (reg reg' : gmap string Impl)
    (T : string) :
  register typ v reg = Ok reg' ->
  reg' !! T = if match typ with
                 | TClass c => String.eqb c T
                 | TUnion cs => mem T cs
                 | TOther _ => false
                 end
              then Some (Registered v) else reg !! T.
Proof.
  destruct typ as [c|cs|d]; simpl; intros H; inversion H; subst.
  - destruct (String.eqb_spec c T) as [->|Hne].
    + apply lookup_insert_eq.
    + apply lookup_insert_ne. exact Hne.
  - apply insert_all_lookup.
Qed.

Lemma last_declaring_from (T : string) (items : TypeHandlersMap) :
  forall acc : option Func,
  fold_left (fun acc kv => if declares (snd kv) T then Some (snd kv) else acc) items acc
  = match last_declaring items T with
    | Some w => Some w
    | None => acc
    end.
Proof.
  unfold last_declaring.
  induction items as [|[k v] rest IH]; intros acc; simpl; [reflexivity|].
  rewrite IH. symmetry. rewrite IH.
  destruct (fold_left _ rest None); [reflexivity|].
  destruct (declares v T); reflexivity.
Qed.

(** The registration loop: afterwards a class maps to the last converter
    that declares it, or to what it mapped to before. *)
Lemma register_all_lookup (items : TypeHandlersMap) (T : string) :
  forall st st' : SdState,
  register_all items st = (st', Ok tt) ->
  registry st' !! T
  = match last_declaring items T with
    | Some v => Some (Registered v)
    | None => registry st !! T
    end.
Proof.
  induction items as [|[k v] rest IH]; intros st st' Hrun.
  - simpl in Hrun. inversion Hrun; subst. reflexivity.
  - simpl in Hrun. unfold last_declaring. simpl fold_left.
    rewrite last_declaring_from. unfold declares.
    destruct (assoc "obj" (fn_hints v)) as [typ|] eqn:Hobj; [|discriminate].
    destruct (register typ v (registry st)) as [reg|e] eqn:Hreg.
    + rewrite (IH _ _ Hrun). simpl registry.
      destruct (last_declaring rest T); [reflexivity|].
      rewrite (register_lookup typ v _ _ T Hreg).
      destruct typ as [c|cs|d]; simpl;
        [destruct (String.eqb c T) | destruct (mem T cs) | ]; reflexivity.
    + destruct typ as [c|cs|d]; simpl in Hreg; try discriminate.
      inversion Hreg; subst. simpl in Hrun.
      rewrite (IH _ _ Hrun). simpl registry.
      destruct (last_declaring rest T); reflexivity.
Qed.

(** X4: after [_register_singledispatch] has run without error, a class maps
    to the last converter of the map, in its order, whose annotation of
    [obj] is that class or a union containing it (a later registration
    replaces an earlier one); a class no converter declares maps to what it
    mapped to before. *)
Theorem direct_table_last_registration_wins (tm : TypeHandlersMap)
    (st st' : SdState) (T : string) :
  _register_singledispatch tm st = (st', Ok tt) ->
  registry st' !! T
  = match last_declaring tm T with
    | Some v => Some (Registered v)
    | None => registry st !! T
    end.
Proof.
  unfold _register_singledispatch.
  destruct (_validate_typemap tm st) as [st1 [[]|e]] eqn:Hval; [|discriminate].
  intros Hrun.
  destruct (validate_typemap_effect tm st st1 Hval) as (_ & _ & Hreg & _).
  rewrite (register_all_lookup tm T st1 st' Hrun), Hreg. reflexivity.
Qed.

Lemma direct_table_last_registration_wins_witness :
  registry (fst (_register_singledispatch enum_class_catalog initial_state)) !! "EnumType"
  = match last_declaring enum_class_catalog "EnumType" with
    | Some v => Some (Registered v)
    | None => registry initial_state !! "EnumType"
    end.
Proof.
  apply (direct_table_last_registration_wins enum_class_catalog initial_state
           (fst (_register_singledispatch enum_class_catalog initial_state)) "EnumType").
  vm_compute. reflexivity.
Defined.

(** Two converters declare [EnumType]; the later one is kept. *)
Lemma last_declaring_EnumType :
  fn_name <$> last_declaring TYPEMAP "EnumType" = Some "enum_type_default"
  /\ declares fn_enum_meta_default "EnumType" = true.
Proof. split; vm_compute; reflexivity. Qed.

Lemma setitem_has_key (k : GObj) (v : Func) (m : TypeHandlersMap) :
  exists k', In (k', v) (setitem k v m) /\ gobj_id k' = gobj_id k.
Proof.
  induction m as [|[k1 v1] m (k' & Hin & Hid)]; simpl.
  - exists k. split; [left; reflexivity|reflexivity].
  - destruct (String.eqb_spec (gobj_id k) (gobj_id k1)) as [E|_].
    + exists k1. split; [left; reflexivity|symmetry; exact E].
    + exists k'. split; [right; exact Hin|exact Hid].
Qed.

Lemma setitem_keeps_keys (k : GObj) (v : Func) (m : TypeHandlersMap) (i : string) :
  (exists k1 v1, In (k1, v1) m /\ gobj_id k1 = i) ->
  exists k1 v1, In (k1, v1) (setitem k v m) /\ gobj_id k1 = i.
Proof.
  induction m as [|[k2 v2] m IH]; intros (k1 & v1 & Hin & Hid); [destruct Hin|].
  simpl. destruct (String.eqb (gobj_id k) (gobj_id k2)) eqn:E.
  - destruct Hin as [H|H].
    + inversion H; subst. exists k1, v. split; [left; reflexivity|reflexivity].
    + exists k1, v1. split; [right; exact H|exact Hid].
  - destruct Hin as [H|H].
    + inversion H; subst. exists k1, v1. split; [left; reflexivity|reflexivity].
    + destruct IH as (k3 & v3 & Hin3 & Hid3); [exists k1, v1; split; assumption|].
      exists k3, v3. split; [right; exact Hin3|exact Hid3].
Qed.

(** What the registration loop does to [_excepted_handlers] and to the
    cache. *)
Lemma register_all_excepted (items : TypeHandlersMap) :
  forall st st' : SdState,
  register_all items st = (st', Ok tt) ->
  (forall i, (exists k1 v1, In (k1, v1) (_excepted_handlers st) /\ gobj_id k1 = i) ->
             exists k1 v1, In (k1, v1) (_excepted_handlers st') /\ gobj_id k1 = i)
  /\ (forall k v, In (k, v) items -> not_keyable v = true ->
        exists k1 v1, In (k1, v1) (_excepted_handlers st') /\ gobj_id k1 = gobj_id k)
  /\ (forall k1 v1, In (k1, v1) (_excepted_handlers st') ->
        In (k1, v1) (_excepted_handlers st)
        \/ exists k, In (k, v1) items /\ gobj_id k = gobj_id k1 /\ not_keyable v1 = true)
  /\ _validation_cache st' = _validation_cache st.
Proof.
  induction items as [|[k v] rest IH]; intros st st' Hrun.
  - simpl in Hrun. inversion Hrun; subst.
    repeat split; [intros i H; exact H | intros k v [] | intros k1 v1 H; left; exact H].
  - simpl in Hrun. unfold not_keyable.
    destruct (assoc "obj" (fn_hints v)) as [typ|] eqn:Hobj; [|discriminate].
    destruct (register typ v (registry st)) as [reg|e] eqn:Hreg.
    + destruct (IH _ _ Hrun) as (Hkeep & Hin & Hout & Hcache). simpl in *.
      split; [exact Hkeep|]. split; [|split; [|exact Hcache]].
      * intros k0 v0 [E|H0] Hnk; [|exact (Hin k0 v0 H0 Hnk)].
        inversion E; subst. rewrite Hobj in Hnk.
        destruct typ; simpl in Hreg; discriminate.
      * intros k1 v1 H1. destruct (Hout k1 v1 H1) as [Hold|(k0 & H0 & Hid & Hnk)];
          [left; exact Hold|].
        right. exists k0. split; [right; exact H0|]. split; assumption.
    + destruct typ as [c|cs|d]; simpl in Hreg; try discriminate.
      inversion Hreg; subst. simpl in Hrun.
      destruct (IH _ _ Hrun) as (Hkeep & Hin & Hout & Hcache). simpl in *.
      split; [|split; [|split; [|exact Hcache]]].
      * intros i Hi. apply Hkeep. apply setitem_keeps_keys. exact Hi.
      * intros k0 v0 [E|H0] Hnk; [|exact (Hin k0 v0 H0 Hnk)].
        inversion E; subst. apply Hkeep.
        destruct (setitem_has_key k0 v0 (_excepted_handlers st)) as (k' & Hk' & Hid).
        exists k', v0. split; assumption.
      * intros k1 v1 H1. destruct (Hout k1 v1 H1) as [Hold|(k0 & H0 & Hid & Hnk)].
        -- destruct (setitem_In _ _ _ _ _ Hold) as [Hst|[Hid ->]]; [left; exact Hst|].
           right. exists k. split; [left; reflexivity|]. split; [symmetry; exact Hid|].
           rewrite Hobj. reflexivity.
        -- right. exists k0. split; [right; exact H0|]. split; assumption.
Qed.



Lemma register_all_total (items : TypeHandlersMap) :
  Forall (fun kv : GObj * Func => has_obj (GFunc (snd kv)) = true) items ->
  forall st : SdState, exists st', register_all items st = (st', Ok tt).
Proof.
  induction 1 as [|[k v] rest Hv _ IH]; intros st; simpl.
  - exists st. reflexivity.
  - simpl in Hv. destruct (assoc "obj" (fn_hints v)) as [typ|]; [|discriminate Hv].
    destruct typ as [c|cs|d]; simpl; apply IH.
Qed.

Lemma register_all_ok_has_obj (items : TypeHandlersMap) :
  forall st st' : SdState,
  register_all items st = (st', Ok tt) ->
  Forall (fun kv : GObj * Func => has_obj (GFunc (snd kv)) = true) items.
Proof.
  induction items as [|[k v] rest IH]; intros st st' Hrun; [constructor|].
  simpl in Hrun.
  destruct (assoc "obj" (fn_hints v)) as [typ|] eqn:Hobj; [|discriminate].
  constructor; [simpl; rewrite Hobj; reflexivity|].
  destruct (register typ v (registry st)) as [reg|e].
  - exact (IH _ _ Hrun).
  - destruct (caught_by "TypeError" e); [exact (IH _ _ Hrun)|discriminate].
Qed.





Lemma validate_all_cached (tm : TypeHandlersMap) (st : SdState) :
  (forall g, In g (handlers tm) -> _validation_cache st !! gobj_id g = Some true) ->
  _validate_typemap tm st = (st, Ok tt).
Proof.
  induction tm as [|[k v] rest IH]; intros Hall; simpl; [reflexivity|].
  unfold validate_unless_cached, cache_read.
  rewrite (Hall (GFunc v)) by (simpl; left; reflexivity).
  rewrite (Hall k) by (simpl; right; left; reflexivity).
  apply IH. intros g Hg. apply Hall. simpl. right. right. exact Hg.
Qed.

(** X7: running [_register_singledispatch] a second time, after a run that
    completed, completes too and leaves the registry and the validation
    cache as the first run left them: every handler is found in the cache,
    and every class is registered again to the same converter. *)
Theorem registration_is_idempotent (tm : TypeHandlersMap) (st st1 : SdState) :
  _register_singledispatch tm st = (st1, Ok tt) ->
  exists st2,
    _register_singledispatch tm st1 = (st2, Ok tt)
    /\ registry st2 = registry st1
    /\ _validation_cache st2 = _validation_cache st1.
Proof.
  unfold _register_singledispatch.
  destruct (_validate_typemap tm st) as [stv [[]|e]] eqn:Hval; [|discriminate].
  intros Hrun.
  destruct (validate_typemap_effect tm st stv Hval) as (Hmark & _ & _ & _).
  destruct (register_all_excepted tm stv st1 Hrun) as (_ & _ & _ & Hcache).
  rewrite (validate_all_cached tm st1)
    by (intros g Hg; rewrite Hcache; exact (Hmark g Hg)).
  destruct (register_all_total tm (register_all_ok_has_obj tm stv st1 Hrun) st1)
    as (st2 & Hrun2).
  exists st2. rewrite Hrun2. split; [reflexivity|].
  split.
  - apply map_eq. intros T.
    rewrite (register_all_lookup tm T st1 st2 Hrun2).
    pose proof (register_all_lookup tm T stv st1 Hrun) as H1.
    destruct (last_declaring tm T); [symmetry; exact H1|reflexivity].
  - destruct (register_all_excepted tm st1 st2 Hrun2) as (_ & _ & _ & Hc2). exact Hc2.
Qed.

Lemma registration_is_idempotent_witness :
  exists st2,
    _register_singledispatch grid_catalog
      (fst (_register_singledispatch grid_catalog initial_state)) = (st2, Ok tt)
    /\ registry st2 = registry (fst (_register_singledispatch grid_catalog initial_state))
    /\ _validation_cache st2
       = _validation_cache (fst (_register_singledispatch grid_catalog initial_state)).
Proof.
  apply (registration_is_idempotent grid_catalog initial_state).
  vm_compute. reflexivity.
Defined.

(** ** Building the type-handlers map *)

Lemma setitem_keys_In (k : GObj) (v : Func) (m : TypeHandlersMap) (i : string) :
  In i (map (fun kv : GObj * Func => gobj_id (fst kv)) (setitem k v m)) ->
  In i (map (fun kv : GObj * Func => gobj_id (fst kv)) m) \/ i = gobj_id k.
Proof.
  induction m as [|[k1 v1] m IH]; simpl.
  - intros [E|[]]. right. symmetry. exact E.
  - destruct (String.eqb (gobj_id k) (gobj_id k1)); simpl.
    + intros H. left. exact H.
    + intros [E|H]; [left; left; exact E|].
      destruct (IH H) as [Hin|Hk]; [left; right; exact Hin|right; exact Hk].
Qed.

Lemma setitem_NoDup (k : GObj) (v : Func) (m : TypeHandlersMap) :
  NoDup (map (fun kv : GObj * Func => gobj_id (fst kv)) m) ->
  NoDup (map (fun kv : GObj * Func => gobj_id (fst kv)) (setitem k v m)).
Proof.
  induction m as [|[k1 v1] m IH]; simpl; intros Hnd.
  - constructor; [apply not_elem_of_nil|constructor].
  - inversion Hnd as [|? ? Hnotin Hnd']; subst.
    destruct (String.eqb_spec (gobj_id k) (gobj_id k1)) as [_|Hne]; simpl.
    + constructor; assumption.
    + constructor; [|exact (IH Hnd')].
      intros Hin. apply list_elem_of_In in Hin.
      destruct (setitem_keys_In k v m _ Hin) as [Hold|Hk].
      * apply Hnotin. apply list_elem_of_In. exact Hold.
      * exact (Hne (eq_sym Hk)).
Qed.

Lemma get_typemap_loop_NoDup (globals : list (string * GObj)) :
  forall (items : list (string * GObj)) (mapping : TypeHandlersMap),
  NoDup (map (fun kv : GObj * Func => gobj_id (fst kv)) mapping) ->
  NoDup (map (fun kv : GObj * Func => gobj_id (fst kv))
             (_get_typemap_loop globals items mapping)).
Proof.
  induction items as [|[name func] rest IH]; intros mapping Hnd; simpl; [exact Hnd|].
  apply IH.
  destruct (startswith "use_" name); [|exact Hnd].
  destruct (assoc (replace "use_" "" name) globals) as [enc|]; [|exact Hnd].
  destruct (gobj_truth enc); [|exact Hnd].
  destruct (callable enc) as [f|]; [|exact Hnd].
  apply setitem_NoDup. exact Hnd.
Qed.

(** Whatever the globals of the module are, no recognizer is a key of the
    map [_get_typemap] builds more than once: a name bound to an object that
    is already a key replaces that key's converter. *)
Lemma typemap_keys_unique (globals : list (string * GObj)) :
  NoDup (map (fun kv : GObj * Func => gobj_id (fst kv)) (_get_typemap globals)).
Proof.
  apply get_typemap_loop_NoDup. constructor.
Qed.

(** A name that does not contain [use_] is left alone by the replacement. *)
Lemma replace_absent (s : string) :
  contains "use_" s = false ->
  replace_from "use_" "" O s = s.
Proof.
  induction s as [|c r IH]; [reflexivity|].
  intros H. cbn [contains] in H. apply orb_false_iff in H. destruct H as [Hp Hc].
  cbn [replace_from]. rewrite Hp. cbn [andb]. rewrite (IH Hc). reflexivity.
Qed.

Lemma replace_use_prefix (s : string) :
  contains "use_" s = false ->
  startswith "use_" ("use_" +:+ s) = true
  /\ replace "use_" "" ("use_" +:+ s) = s.
Proof.
  intros H.
  change ("use_" +:+ s) with (String "u" (String "s" (String "e" (String "_" s)))).
  assert (Hp : String.prefix "use_" (String "u" (String "s" (String "e" (String "_" s))))
               = true) by (destruct s; reflexivity).
  split; [exact Hp|].
  unfold replace. cbn [replace_from]. rewrite Hp.
  exact (replace_absent s H).
Qed.

Lemma setitem_keeps_other (k : GObj) (v : Func) (m : TypeHandlersMap)
    (k1 : GObj) (v1 : Func) :
  In (k1, v1) m ->
  gobj_id k <> gobj_id k1 ->
  In (k1, v1) (setitem k v m).
Proof.
  induction m as [|[k2 v2] m IH]; intros Hin Hne; [destruct Hin|].
  simpl. destruct (String.eqb_spec (gobj_id k) (gobj_id k2)) as [E|_].
  - destruct Hin as [H|H]; [inversion H; subst; contradiction|right; exact H].
  - destruct Hin as [H|H]; [left; exact H|right; exact (IH H Hne)].
Qed.

Lemma get_typemap_loop_keeps_pair (globals : list (string * GObj))
    (name : string) (k : GObj) (v : Func) :
  startswith "use_" name = true ->
  assoc (replace "use_" "" name) globals = Some (GFunc v) ->
  forall (items : list (string * GObj)) (mapping : TypeHandlersMap),
  (forall n' k', In (n', k') items -> gobj_id k' = gobj_id k -> n' = name) ->
  (exists k1, In (k1, v) mapping /\ gobj_id k1 = gobj_id k)
  \/ (exists k0, In (name, k0) items /\ gobj_id k0 = gobj_id k) ->
  exists k1, In (k1, v) (_get_typemap_loop globals items mapping)
             /\ gobj_id k1 = gobj_id k.
Proof.
  intros Hpre Henc.
  induction items as [|[n f] rest IH]; intros mapping Hsole Hcase.
  - destruct Hcase as [H|(k0 & [] & _)]. exact H.
  - simpl. apply IH.
    + intros n' k' Hin. apply Hsole. right. exact Hin.
    + destruct (String.eqb_spec (gobj_id f) (gobj_id k)) as [Eid|Nid].
      * left. rewrite (Hsole n f (or_introl eq_refl) Eid).
        rewrite Hpre, Henc. simpl.
        destruct (setitem_has_key f v mapping) as (k1 & Hin & Hid).
        exists k1. split; [exact Hin|congruence].
      * destruct Hcase as [(k1 & Hin & Hid)|(k0 & [E|Hin] & Hid)].
        -- left. exists k1. split; [|exact Hid].
           assert (Hne : gobj_id f <> gobj_id k1) by congruence.
           destruct (startswith "use_" n); [|exact Hin].
           destruct (assoc (replace "use_" "" n) globals) as [enc|]; [|exact Hin].
           destruct (gobj_truth enc); [|exact Hin].
           destruct (callable enc) as [f'|]; [|exact Hin].
           apply setitem_keeps_other; assumption.
        -- inversion E; subst. contradiction.
        -- right. exists k0. split; assumption.
Qed.

(** X8: when the module binds [use_] followed by [s] to a recognizer, [s] to
    a function, [s] contains no further [use_], and the recognizer is bound
    under no other name, the map [_get_typemap] builds pairs that recognizer
    with that function. *)
Theorem typemap_contains_named_pair (globals : list (string * GObj))
    (s : string) (k : GObj) (v : Func) :
  contains "use_" s = false ->
  In ("use_" +:+ s, k) globals ->
  assoc s globals = Some (GFunc v) ->
  (forall n' k', In (n', k') globals -> gobj_id k' = gobj_id k -> n' = "use_" +:+ s) ->
  exists k1, In (k1, v) (_get_typemap globals) /\ gobj_id k1 = gobj_id k.
Proof.
  intros Hs Hin Henc Hsole.
  destruct (replace_use_prefix s Hs) as (Hpre & Hrep).
  apply (get_typemap_loop_keeps_pair globals ("use_" +:+ s) k v Hpre).
  - rewrite Hrep. exact Henc.
  - exact Hsole.
  - right. exists k. split; [exact Hin|reflexivity].
Qed.

Lemma typemap_contains_named_pair_witness :
  exists k1, In (k1, fn_uuid_default) (_get_typemap module_globals)
             /\ gobj_id k1 = gobj_id (GFunc fn_use_uuid_default).
Proof.
  apply (typemap_contains_named_pair module_globals "uuid_default"
           (GFunc fn_use_uuid_default) fn_uuid_default).
  - vm_compute. reflexivity.
  - do 142 right. left. reflexivity.
  - vm_compute. reflexivity.
  - intros n' k' Hin Hid. unfold module_globals in Hin.
    repeat (destruct Hin as [E|Hin];
            [inversion E; subst;
             first [reflexivity | vm_compute in Hid; discriminate Hid]|]).
    destruct Hin.
Defined.

(** ** The catalog of the module *)





Lemma first_match_app (a b : TypeHandlersMap) (x : PyVal) :
  first_match (a ++ b) x
  = match first_match a x with
    | Ok None => first_match b x
    | r => r
    end.
Proof.
  induction a as [|[k v] a IH]; simpl.
  - destruct (first_match b x) as [[f|]|e]; reflexivity.
  - destruct (call k x) as [r|e]; simpl; [|reflexivity].
    destruct (truthy r); [reflexivity|exact IH].
Qed.

Lemma first_match_In (tm : TypeHandlersMap) (x : PyVal) (f : Func) :
  first_match tm x = Ok (Some f) -> In f (map snd tm).
Proof.
  induction tm as [|[k v] rest IH]; simpl; [discriminate|].
  destruct (call k x) as [r|e]; simpl; [|discriminate].
  destruct (truthy r).
  - intros H. inversion H; subst. left. reflexivity.
  - intros H. right. exact (IH H).
Qed.

Lemma find_impl_in_registry (reg : gmap string Impl) (mro : list MroEntry) (impl : Impl) :
  _find_impl reg mro = Ok impl -> exists T, reg !! T = Some impl.
Proof.
  induction mro as [|t rest IH]; simpl; [discriminate|].
  destruct (reg !! me_class t) as [i|] eqn:Hlook; [|exact IH].
  destruct rest as [|t' rest'].
  - intros H. inversion H; subst. exists (me_class t). exact Hlook.
  - destruct (in_registry reg (me_class t') && negb (me_real t') && negb (me_real t)
              && negb (mem (me_class t') (me_supers t))); [discriminate|].
    intros H. inversion H; subst. exists (me_class t). exact Hlook.
Qed.

Lemma TYPEMAP_around_enum :
  TYPEMAP = firstn 10 TYPEMAP
            ++ [(GFunc fn_use_enum_default, fn_enum_default);
                (GFunc fn_use_enum_meta_default, fn_enum_meta_default);
                (GFunc fn_use_enum_type_default, fn_enum_type_default)]
            ++ skipn 13 TYPEMAP.
Proof. vm_compute; reflexivity. Qed.

Lemma names_without_enum_meta :
  Forall (fun v => fn_name v <> "enum_meta_default")
         (map snd (firstn 10 TYPEMAP) ++ map snd (skipn 13 TYPEMAP))
  /\ map_Forall (fun _ impl => impl_name impl <> "enum_meta_default") (registry sd).
Proof.
  split; apply (bool_decide_unpack _); vm_compute; exact I.
Qed.

(** The recognizer of [enum_meta_default] tests [obj is EnumMeta], which
    the recognizer before it, [use_enum_default], accepts too. *)
Lemma use_enum_default_covers (x : PyVal) :
  use_enum_default x = Ok (OBool false) -> is_ x "EnumType" = false.
Proof.
  unfold use_enum_default, pred. intros H. injection H as Hb.
  apply orb_false_iff in Hb. destruct Hb as [_ Hb]. exact Hb.
Qed.

(** X10: [enum_meta_default] is never the converter [serialize] selects: in
    the registry its class, [EnumMeta], is the class [EnumType], which the
    later [enum_type_default] took over, and in the map its recognizer comes
    after [use_enum_default], which is true whenever it is. *)
Theorem enum_meta_default_never_selected (x : PyVal) (f : Func) :
  resolve TYPEMAP sd x = Ok (Some f) ->
  fn_name f <> "enum_meta_default".
Proof.
  destruct names_without_enum_meta as [Hnames Hreg].
  rewrite List.Forall_forall in Hnames.
  unfold resolve, dispatch.
  destruct (_find_impl (registry sd) (cls_mro (type_ x))) as [[|g]|e] eqn:Hfind;
    cbv beta iota delta [bind].
  - rewrite TYPEMAP_around_enum, first_match_app.
    destruct (first_match (firstn 10 TYPEMAP) x) as [[f0|]|e0] eqn:Hpre.
    + intros H. inversion H; subst. apply Hnames. apply in_or_app. left.
      exact (first_match_In _ x f Hpre).
    + set (rest := skipn 13 TYPEMAP) in *.
      cbn [first_match app call fn_call fn_use_enum_default
           fn_use_enum_meta_default fn_use_enum_type_default recognizer].
      unfold use_enum_default, use_enum_meta_default, use_enum_type_default, pred.
      cbn [bind truthy].
      destruct (isinstance_any x ["Enum"; "EnumType"]
                || isinstance x "type" && class_issubclass x "Enum"
                || is_ x "EnumType" || is_ x "EnumType") eqn:Hb.
      * intros H. injection H as <-. intros Heq. vm_compute in Heq. discriminate Heq.
      * apply orb_false_iff in Hb. destruct Hb as [_ Hb]. rewrite Hb.
        intros H. apply Hnames. apply in_or_app. right.
        exact (first_match_In _ x f H).
    + discriminate.
  - intros H. injection H as <-.
    destruct (find_impl_in_registry _ _ _ Hfind) as (T & HT).
    exact (Hreg T (Registered g) HT).
  - discriminate.
Qed.

Lemma enum_meta_default_never_selected_witness :
  fn_name fn_set_default <> "enum_meta_default".
Proof.
  apply (enum_meta_default_never_selected set_of_three fn_set_default).
  vm_compute. reflexivity.
Defined.

Lemma builtin_classes_registered :
  Forall (fun T => registry sd !! T = Some (Registered fn_builtin_default))
         builtin_classes.
Proof. repeat (constructor; [vm_compute; reflexivity|]). constructor. Qed.

(** X11: a value whose class is [int], [float], [bool], [str], [list],
    [dict] or [tuple], or a subclass of one of them with no registered class
    before it in the walk, is returned by [serialize] as the same object,
    not a copy or a conversion. *)
Theorem builtin_values_returned_as_is (x : PyVal) (T : string)
    (pre : list MroEntry) (t : MroEntry) (post : list MroEntry) (_raise : bool) :
  In T builtin_classes ->
  cls_mro (type_ x) = pre ++ t :: post ->
  me_class t = T ->
  me_real t = true ->
  Forall (fun e => registry sd !! me_class e = None) pre ->
  serialize TYPEMAP sd x _raise = Ok (ORef x).
Proof.
  intros HT Hmro Hcls Hreal Hpre.
  pose proof builtin_classes_registered as Hreg.
  rewrite List.Forall_forall in Hreg. specialize (Hreg T HT). subst T.
  unfold serialize, dispatch. rewrite Hmro.
  rewrite (find_impl_first_registered _ pre t post _ Hpre Hreg Hreal).
  reflexivity.
Qed.

Lemma builtin_values_returned_as_is_witness :
  serialize TYPEMAP sd celsius_obj true = Ok (ORef celsius_obj).
Proof.
  apply (builtin_values_returned_as_is celsius_obj "int"
           [real_entry "Celsius"] (real_entry "int") [real_entry "object"] true).
  - left. reflexivity.
  - reflexivity.
  - reflexivity.
  - reflexivity.
  - constructor; [vm_compute; reflexivity|constructor].
Defined.

(** X12: on a [Decimal], [decimal_default] raises exactly for a signalling
    NaN; for every other decimal it returns an integer when the exponent is
    an integer that is not negative, and a float otherwise (quiet NaN and
    the infinities included). *)
Theorem decimal_default_raises_iff_signalling (x : PyVal) (sign : bool)
    (ds : list Z) (e : DecExp) :
  ob_state x = SDecimal sign ds e ->
  (is_ok (decimal_default x) = false <-> e = ESNaN)
  /\ (forall z, decimal_default x = Ok (OInt z) -> exists n, e = EInt n /\ 0 <= n)
  /\ (forall f, decimal_default x = Ok (OFloat f) ->
        match e with EInt n => n < 0 | ESNaN => False | _ => True end).
Proof.
  intros Hst. unfold decimal_default, as_tuple_exponent, int_, float_.
  rewrite Hst. cbn [bind].
  destruct e as [n| | |].
  - destruct (0 <=? n) eqn:Hn; cbn [is_ok].
    + apply Z.leb_le in Hn.
      split; [split; discriminate|].
      split; [intros z _; exists n; split; [reflexivity|exact Hn]|discriminate].
    + apply Z.leb_gt in Hn.
      split; [split; discriminate|].
      split; [discriminate|intros f _; exact Hn].
  - split; [split; discriminate|]. split; [discriminate|intros f _; exact I].
  - split; [split; reflexivity|]. split; discriminate.
  - split; [split; discriminate|]. split; [discriminate|intros f _; exact I].
Qed.

Lemma decimal_default_raises_iff_signalling_witness :
  is_ok (decimal_default dec_snan) = false <-> ESNaN = ESNaN.
Proof.
  exact (proj1 (decimal_default_raises_iff_signalling dec_snan false [] ESNaN eq_refl)).
Defined.



Lemma mute_error_text :
  exception_default mute_error = Ok (OStr "ValueError: <exception str() failed>").
Proof. vm_compute; reflexivity. Qed.

(** ** When the loop over the map runs *)

Lemma find_impl_split (reg : gmap string Impl) (mro : list MroEntry) (impl : Impl) :
  _find_impl reg mro = Ok impl ->
  exists pre t post,
    mro = pre ++ t :: post
    /\ reg !! me_class t = Some impl
    /\ Forall (fun e => reg !! me_class e = None) pre.
Proof.
  induction mro as [|t rest IH]; simpl; [discriminate|].
  destruct (reg !! me_class t) as [i|] eqn:Hlook.
  - intros H.
    assert (Hi : i = impl).
    { destruct rest as [|t' rest']; [congruence|].
      destruct (in_registry reg (me_class t') && negb (me_real t') && negb (me_real t)
                && negb (mem (me_class t') (me_supers t))); congruence. }
    subst i. exists [], t, rest. repeat split; [exact Hlook|constructor].
  - intros H. destruct (IH H) as (pre & t0 & post & -> & Ht0 & Hpre).
    exists (t :: pre), t0, post. repeat split; [exact Ht0|].
    constructor; [exact Hlook|exact Hpre].
Qed.

Lemma only_object_is_base :
  map_Forall (fun T impl => impl = Base -> T = "object") (registry sd).
Proof.
  apply map_Forall_lookup. intros T impl HT Himpl. subst impl.
  assert (H : map_Forall (fun T impl => impl_name impl = "serialize" -> T = "object")
                         (registry sd))
    by (apply (bool_decide_unpack _); vm_compute; exact I).
  exact (H T Base HT eq_refl).
Qed.

(** X14: after import, the body of [serialize], and so the loop over the
    map, runs for a value only when no class of its walk before [object] is
    registered: a value with a registered class, or a subclass of one, never
    reaches the recognizers. *)
Theorem map_scanned_only_without_registration (x : PyVal) :
  dispatch (registry sd) (type_ x) = Ok Base ->
  exists pre t post,
    cls_mro (type_ x) = pre ++ t :: post
    /\ me_class t = "object"
    /\ Forall (fun e => registry sd !! me_class e = None) pre.
Proof.
  intros Hbase. unfold dispatch in Hbase.
  destruct (find_impl_split _ _ _ Hbase) as (pre & t & post & Hmro & Ht & Hpre).
  exists pre, t, post. repeat split; [exact Hmro| |exact Hpre].
  exact (only_object_is_base _ _ Ht eq_refl).
Qed.

Lemma map_scanned_only_without_registration_witness :
  exists pre t post,
    cls_mro (type_ blob_obj) = pre ++ t :: post
    /\ me_class t = "object"
    /\ Forall (fun e => registry sd !! me_class e = None) pre.
Proof.
  apply (map_scanned_only_without_registration blob_obj).
  vm_compute. reflexivity.
Defined.

(** X15: from registration to dispatch.  After [_register_singledispatch]
    has run without error on a map, a value whose class is exactly [T] is
    converted by the last converter of the map that declares [T], whatever
    the recognizers say. *)
Theorem registered_class_uses_last_declaring (tm : TypeHandlersMap)
    (st st' : SdState) (x : PyVal) (T : string) (v : Func)
    (supers : list string) (post : list MroEntry) (_raise : bool) :
  _register_singledispatch tm st = (st', Ok tt) ->
  last_declaring tm T = Some v ->
  cls_mro (type_ x) = MkEntry T true supers :: post ->
  serialize tm st' x _raise = fn_call v x.
Proof.
  unfold _register_singledispatch.
  destruct (_validate_typemap tm st) as [st1 [[]|e]] eqn:Hval; [|discriminate].
  intros Hrun Hlast Hmro.
  pose proof (register_all_lookup tm T st1 st' Hrun) as Hreg. rewrite Hlast in Hreg.
  pose proof (find_impl_first_registered (registry st') [] (MkEntry T true supers) post
                (Registered v) (List.Forall_nil _) Hreg eq_refl) as Hfind.
  cbn [app] in Hfind.
  unfold serialize, dispatch. rewrite Hmro, Hfind. reflexivity.
Qed.

Lemma registered_class_uses_last_declaring_witness :
  serialize enum_class_catalog
            (fst (_register_singledispatch enum_class_catalog initial_state))
            Color_obj true
  = fn_call fn_enum_type_default Color_obj.
Proof.
  apply (registered_class_uses_last_declaring enum_class_catalog initial_state
           (fst (_register_singledispatch enum_class_catalog initial_state))
           Color_obj "EnumType" fn_enum_type_default []
           [real_entry "type"; real_entry "object"] true).
  - vm_compute. reflexivity.
  - vm_compute. reflexivity.
  - reflexivity.
Defined.

(** The class [Color] is converted to the values of its members. *)
Lemma enum_class_values :
  serialize TYPEMAP sd Color_obj true = Ok (OList [ORef (int_obj 1); ORef (int_obj 2)])
  /\ serialize TYPEMAP sd (color_member "RED" 1) true = Ok (ORef (int_obj 1)).
Proof. split; vm_compute; reflexivity. Qed.

(** ** The order of the map *)




